(** * mycloud: which cloud is this host running on?

    A shallow embedding of [main.go] and the properties of its detector
    registry, its probes, the post-join winner scan and the key fetch.

    Conventions of the embedding.
    - A Go [*string] is an [option string]; dereferencing [None] panics.
    - A Go [error] value is an [option error]; [None] is Go's [nil].
    - Every function with an effect runs in the monad [IO]: it reads the
      outcomes of its transport calls (HTTP, file system, local command)
      from a [World], records each call and each write to standard output
      as an [Event], and either returns normally or panics.
    - [logOutput] writes to standard error only and is left out: standard
      output and the exit status are what the embedding observes. *)

From stdpp Require Import gmap strings list.
From Stdlib Require Import ZArith Ascii.

Local Open Scope string_scope.
Local Open Scope list_scope.
Local Open Scope Z_scope.

(** ** Results, errors and the transport *)

Definition error := string.

Inductive result (A : Type) : Type :=
  | Ok (a : A)
  | Err (e : error).
Arguments Ok {A} a.
Arguments Err {A} e.

(** [http.Request]: the URL and the headers of a GET. *)
Record Request := mkRequest {
  URL : string;
  ReqHeader : gmap string string
}.

(** [http.Response]: the fields [getUrl] and its callers read. [Header] is
    keyed by canonical header names, as the HTTP client stores them;
    [Body] is what [ioutil.ReadAll(resp.Body)] returns. *)
Record Response := mkResponse {
  StatusCode : Z;
  Status : string;
  Header : gmap string (list string);
  Body : result string
}.

(** [http.Header.Get] for a key that is already in canonical form: the
    first value stored under the key, or the empty string. *)
Definition Header_Get (h : gmap string (list string)) (key : string) : string :=
  match h !! key with
  | Some (v :: _) => v
  | _ => ""
  end.

(** What [client.Do(req)] returns: a response and no error, or an error
    (with a response that callers may ignore). *)
Inductive DoResult :=
  | DoOk (resp : Response)
  | DoErr (resp : option Response) (err : error).

(** The outcomes of the transport: a GET of a URL with request headers
    (one second for the whole request), [os.Stat(path)] (its error), and
    [exec.Command(cmd, args...).Output()]. *)
Record World := mkWorld {
  httpDo : string -> gmap string string -> DoResult;
  osStat : string -> option error;
  execOutput : string -> list string -> result string
}.

Inductive Event :=
  | EvHttpGet (url : string) (headers : gmap string string)
  | EvStat (path : string)
  | EvExec (cmd : string) (args : list string)
  | EvPrint (s : string).

Inductive outcome (A : Type) : Type :=
  | Normal (a : A)
  | Panic (msg : string).
Arguments Normal {A} a.
Arguments Panic {A} msg.

(** ** The monad of effects *)

Definition IO (A : Type) : Type := World -> outcome A * list Event.

Definition io_ret {A} (a : A) : IO A := fun _ => (Normal a, []).

Definition io_bind {A B} (f : A -> IO B) (m : IO A) : IO B :=
  fun w =>
    match m w with
    | (Normal a, t1) => let '(r, t2) := f a w in (r, t1 ++ t2)
    | (Panic msg, t1) => (Panic msg, t1)
    end.

#[global] Instance IO_ret : MRet IO := @io_ret.
#[global] Instance IO_bind : MBind IO := @io_bind.
#[global] Instance IO_fmap : FMap IO :=
  fun A B (f : A -> B) (m : IO A) => io_bind (fun a => io_ret (f a)) m.

Definition panic {A} (msg : string) : IO A := fun _ => (Panic msg, []).

Definition nil_dereference : string :=
  "invalid memory address or nil pointer dereference".

(** Dereference of a pointer. *)
Definition deref {A} (p : option A) : IO A :=
  match p with
  | Some a => mret a
  | None => panic nil_dereference
  end.

(** The GET on the wire. *)
Definition roundTrip (r : Request) : IO DoResult :=
  fun w => (Normal (httpDo w (URL r) (ReqHeader r)), [EvHttpGet (URL r) (ReqHeader r)]).

(** [client.Do(req)]: it reads the request, so a [nil] request panics. *)
Definition client_Do (req : option Request) : IO DoResult :=
  r ← deref req; roundTrip r.

Definition os_Stat (path : string) : IO (option error) :=
  fun w => (Normal (osStat w path), [EvStat path]).

Definition exec_Output (cmd : string) (args : list string) : IO (result string) :=
  fun w => (Normal (execOutput w cmd args), [EvExec cmd args]).

(** [fmt.Printf] of a string to standard output. *)
Definition Printf (s : string) : IO unit :=
  fun _ => (Normal (), [EvPrint s]).

Definition nl : string := String "010"%char "".
Definition tab : string := String "009"%char "".

(** The text that the format of a string and a newline produces. *)
Definition line (s : string) : string := s +:+ nl.

(** What a run has written to standard output, and its transport calls. *)
Definition printed (t : list Event) : list string :=
  omap (fun e => match e with EvPrint s => Some s | _ => None end) t.

Definition stdout_of (t : list Event) : string := String.concat "" (printed t).

Definition calls_of (t : list Event) : list Event :=
  omap (fun e => match e with EvPrint _ => None | _ => Some e end) t.

(** ** encoding/json, as far as [OpenStackCloud.getKey] uses it

    [json.NewDecoder(strings.NewReader(body)).Decode(&m)] with
    [m : map[string]string] is a call into Go's library. It is modelled on
    bytes: the decoder reads the first JSON value of the stream (bytes after
    it are not looked at), and stores it in [m] only when the whole value is
    well formed. The nesting limit of recent Go versions is not modelled. *)

Fixpoint bytes_of_string (s : string) : list Z :=
  match s with
  | EmptyString => []
  | String a r => Z.of_N (Ascii.N_of_ascii a) :: bytes_of_string r
  end.

Fixpoint string_of_bytes (l : list Z) : string :=
  match l with
  | [] => EmptyString
  | b :: r => String (Ascii.ascii_of_N (Z.to_N b)) (string_of_bytes r)
  end.

#[local] Unset Elimination Schemes.
Inductive JValue :=
  | JNull
  | JBool (b : bool)
  | JNumber
  | JString (s : string)
  | JArray (elems : list JValue)
  | JObject (fields : list (string * JValue)).
#[local] Set Elimination Schemes.

Definition is_space (c : Z) : bool :=
  (c =? 32) || (c =? 9) || (c =? 13) || (c =? 10).

Fixpoint skip_space (s : list Z) : list Z :=
  match s with
  | c :: r => if is_space c then skip_space r else s
  | [] => []
  end.

Definition is_digit (c : Z) : bool := (48 <=? c) && (c <=? 57).

Definition hexval (c : Z) : option Z :=
  if (48 <=? c) && (c <=? 57) then Some (c - 48)
  else if (97 <=? c) && (c <=? 102) then Some (c - 87)
  else if (65 <=? c) && (c <=? 70) then Some (c - 55)
  else None.

(** [getu4]: the code unit of a [\uXXXX] escape at the head of [s]. *)
Definition getu4 (s : list Z) : option Z :=
  match s with
  | 92 :: 117 :: a :: b :: c :: d :: _ =>
      a ← hexval a; b ← hexval b; c ← hexval c; d ← hexval d;
      Some (((a * 16 + b) * 16 + c) * 16 + d)
  | _ => None
  end.

Definition ReplacementChar : Z := 65533.

Definition IsSurrogate (r : Z) : bool := (55296 <=? r) && (r <? 57344).

(** [utf16.DecodeRune]. *)
Definition utf16_DecodeRune (r1 r2 : Z) : Z :=
  if (55296 <=? r1) && (r1 <? 56320) && (56320 <=? r2) && (r2 <? 57344)
  then Z.lor (Z.shiftl (r1 - 55296) 10) (r2 - 56320) + 65536
  else ReplacementChar.

(** [utf8.EncodeRune]. *)
Definition EncodeRune (r : Z) : list Z :=
  let cont x := Z.lor 128 (Z.land x 63) in
  if (0 <=? r) && (r <=? 127) then [r]
  else if (0 <=? r) && (r <=? 2047) then [Z.lor 192 (Z.shiftr r 6); cont r]
  else if (r <? 0) || (1114111 <? r) || IsSurrogate r then [239; 191; 189]
  else if r <=? 65535 then
    [Z.lor 224 (Z.shiftr r 12); cont (Z.shiftr r 6); cont r]
  else
    [Z.lor 240 (Z.shiftr r 18); cont (Z.shiftr r 12); cont (Z.shiftr r 6); cont r].

(** [utf8.DecodeRune] at the head of [s], first byte at least 128: the
    length of the well-formed sequence there, or [None] (Go then yields
    the replacement character and advances by one byte). *)
Definition utf8_valid_prefix (s : list Z) : option nat :=
  let between lo hi x := (lo <=? x) && (x <=? hi) in
  let tail x := between 128 191 x in
  match s with
  | b0 :: r =>
      if between 194 223 b0 then
        match r with b1 :: _ => if tail b1 then Some 2%nat else None | _ => None end
      else if between 224 239 b0 then
        match r with
        | b1 :: b2 :: _ =>
            let lo := if b0 =? 224 then 160 else 128 in
            let hi := if b0 =? 237 then 159 else 191 in
            if between lo hi b1 && tail b2 then Some 3%nat else None
        | _ => None
        end
      else if between 240 244 b0 then
        match r with
        | b1 :: b2 :: b3 :: _ =>
            let lo := if b0 =? 240 then 144 else 128 in
            let hi := if b0 =? 244 then 143 else 191 in
            if between lo hi b1 && tail b2 && tail b3 then Some 4%nat else None
        | _ => None
        end
      else None
  | [] => None
  end.

(** The content of a string literal after its opening quote, unquoted as
    Go does, and the input after the closing quote. *)
Fixpoint parse_string (fuel : nat) (s : list Z) : option (list Z * list Z) :=
  match fuel with
  | O => None
  | S fuel =>
      let continue (out : list Z) (r : list Z) :=
        '(o, r') ← parse_string fuel r; Some (out ++ o, r') in
      match s with
      | [] => None
      | c :: r =>
          if c =? 34 then Some ([], r)
          else if c =? 92 then
            match r with
            | [] => None
            | e :: r' =>
                if (e =? 34) || (e =? 92) || (e =? 47) then continue [e] r'
                else if e =? 98 then continue [8] r'
                else if e =? 102 then continue [12] r'
                else if e =? 110 then continue [10] r'
                else if e =? 114 then continue [13] r'
                else if e =? 116 then continue [9] r'
                else if e =? 117 then
                  rr ← getu4 s;
                  let r6 := drop 6 s in
                  if IsSurrogate rr then
                    let dec := utf16_DecodeRune rr (default (-1) (getu4 r6)) in
                    if negb (dec =? ReplacementChar)
                    then continue (EncodeRune dec) (drop 6 r6)
                    else continue (EncodeRune ReplacementChar) r6
                  else continue (EncodeRune rr) r6
                else None
            end
          else if c <? 32 then None
          else if c <? 128 then continue [c] r
          else
            match utf8_valid_prefix s with
            | Some n => continue (take n s) (drop n s)
            | None => continue (EncodeRune ReplacementChar) r
            end
      end
  end.

Fixpoint skip_digits (s : list Z) : list Z :=
  match s with
  | c :: r => if is_digit c then skip_digits r else s
  | [] => []
  end.

(** A number literal at the head of [s]: the input after it. *)
Definition parse_number (s : list Z) : option (list Z) :=
  let digits1 (s : list Z) :=
    match s with
    | c :: r => if is_digit c then Some (skip_digits r) else None
    | [] => None
    end in
  let s := match s with 45 :: r => r | _ => s end in
  s ← match s with
      | 48 :: r => Some r
      | c :: r => if is_digit c then Some (skip_digits r) else None
      | [] => None
      end;
  s ← match s with
      | 46 :: r => digits1 r
      | _ => Some s
      end;
  match s with
  | c :: r =>
      if (c =? 101) || (c =? 69) then
        match r with
        | sg :: r' => if (sg =? 43) || (sg =? 45) then digits1 r' else digits1 r
        | [] => None
        end
      else Some s
  | [] => Some s
  end.

Definition expect (lit : list Z) (s : list Z) : option (list Z) :=
  if bool_decide (take (length lit) s = lit) then Some (drop (length lit) s) else None.

Fixpoint parse_value (fuel : nat) (s : list Z) : option (JValue * list Z) :=
  match fuel with
  | O => None
  | S fuel =>
      match skip_space s with
      | [] => None
      | c :: r =>
          if c =? 123 then
            match skip_space r with
            | 125 :: r' => Some (JObject [], r')
            | _ => '(fs, r') ← parse_members fuel r; Some (JObject fs, r')
            end
          else if c =? 91 then
            match skip_space r with
            | 93 :: r' => Some (JArray [], r')
            | _ => '(vs, r') ← parse_elements fuel r; Some (JArray vs, r')
            end
          else if c =? 34 then
            '(str, r') ← parse_string (S (length r)) r;
            Some (JString (string_of_bytes str), r')
          else if c =? 116 then r' ← expect [114; 117; 101] r; Some (JBool true, r')
          else if c =? 102 then r' ← expect [97; 108; 115; 101] r; Some (JBool false, r')
          else if c =? 110 then r' ← expect [117; 108; 108] r; Some (JNull, r')
          else r' ← parse_number (c :: r); Some (JNumber, r')
      end
  end
with parse_members (fuel : nat) (s : list Z) : option (list (string * JValue) * list Z) :=
  match fuel with
  | O => None
  | S fuel =>
      match skip_space s with
      | 34 :: r =>
          '(k, r1) ← parse_string (S (length r)) r;
          match skip_space r1 with
          | 58 :: r2 =>
              '(v, r3) ← parse_value fuel r2;
              match skip_space r3 with
              | 44 :: r4 =>
                  '(rest, r5) ← parse_members fuel r4;
                  Some ((string_of_bytes k, v) :: rest, r5)
              | 125 :: r4 => Some ([(string_of_bytes k, v)], r4)
              | _ => None
              end
          | _ => None
          end
      | _ => None
      end
  end
with parse_elements (fuel : nat) (s : list Z) : option (list JValue * list Z) :=
  match fuel with
  | O => None
  | S fuel =>
      '(v, r1) ← parse_value fuel s;
      match skip_space r1 with
      | 44 :: r2 => '(rest, r3) ← parse_elements fuel r2; Some (v :: rest, r3)
      | 93 :: r2 => Some ([v], r2)
      | _ => None
      end
  end.

(** The element stored for a field of the object: a JSON string as it is;
    for any other value Go records a type error (which the caller drops)
    and stores the zero value of [string]. *)
Definition map_elem (v : JValue) : string :=
  match v with
  | JString s => s
  | _ => ""
  end.

(** [m] after [var m map[string]string; dec.Decode(&m)]: the fields of the
    object, a later duplicate overwriting an earlier one. [m] stays [nil],
    which reads like the empty map, when the input is no well-formed JSON
    value or is a value other than an object. *)
Definition json_Decode_map (body : string) : gmap string string :=
  let bs := bytes_of_string body in
  match parse_value (S (length bs)) bs with
  | Some (JObject fields, _) =>
      foldl (fun m kv => <[kv.1 := map_elem kv.2]> m) ∅ fields
  | _ => ∅
  end.

(** Go's [m[key]] on a [map[string]string]. *)
Definition map_index (m : gmap string string) (key : string) : string :=
  default "" (m !! key).

(** ** The flag package, as far as [setupOptions] uses it *)

Record CommandOptions := mkCommandOptions {
  verbose : bool;
  key : string
}.

(** [strconv.ParseBool], which the flag package applies to the value of a
    boolean flag. *)
Definition ParseBool (s : string) : option bool :=
  if bool_decide (s ∈ ["1"; "t"; "T"; "TRUE"; "true"; "True"]) then Some true
  else if bool_decide (s ∈ ["0"; "f"; "F"; "FALSE"; "false"; "False"]) then Some false
  else None.

(** The text before the first [=] and, when there is one, the text after. *)
Fixpoint split_equals (s : string) : string * option string :=
  match s with
  | EmptyString => (EmptyString, None)
  | String c r =>
      if bool_decide (c = "="%char) then (EmptyString, Some r)
      else let '(n, v) := split_equals r in (String c n, v)
  end.

(** [flag.Parse] over the arguments after the program name, with the two
    flags that [setupOptions] defines: [key] (a string, default empty) and
    [verbose] (a boolean, default false). [None]: the flag package printed
    its message or the usage text to standard error and ended the process
    before [setupOptions] returned. *)
Fixpoint flag_Parse (args : list string) (o : CommandOptions) : option CommandOptions :=
  match args with
  | [] => Some o
  | s :: rest =>
      match s with
      | String "-" (String c1 s2 as s1) =>
          if bool_decide (s1 = "-") then Some o
          else
            let name := if bool_decide (c1 = "-"%char) then s2 else s1 in
            match name with
            | EmptyString => None
            | String n0 name' =>
                if bool_decide (n0 = "-"%char) || bool_decide (n0 = "="%char) then None
                else
                  let '(name', value) := split_equals name' in
                  let name := String n0 name' in
                  if bool_decide (name = "verbose") then
                    match value with
                    | Some v =>
                        b ← ParseBool v;
                        flag_Parse rest {| verbose := b; key := key o |}
                    | None => flag_Parse rest {| verbose := true; key := key o |}
                    end
                  else if bool_decide (name = "key") then
                    match value with
                    | Some v => flag_Parse rest {| verbose := verbose o; key := v |}
                    | None =>
                        match rest with
                        | v :: rest' =>
                            flag_Parse rest' {| verbose := verbose o; key := v |}
                        | [] => None
                        end
                    end
                  else None
            end
      | _ => Some o
      end
  end.

(** ** Sample hosts *)

Definition dq : string := String "034"%char "".
Definition quoted (s : string) : string := dq +:+ s +:+ dq.

Definition ok200 (body : string) (h : gmap string (list string)) : DoResult :=
  DoOk {| StatusCode := 200; Status := "200 OK"; Header := h; Body := Ok body |}.

Definition notFound : DoResult :=
  DoOk {| StatusCode := 404; Status := "404 Not Found"; Header := ∅; Body := Ok "" |}.

(** A host on no cloud: nothing answers, no marker file, no command. *)
Definition bare_host : World :=
  {| httpDo := fun _ _ => DoErr None "dial tcp: i/o timeout";
     osStat := fun _ => Some "no such file or directory";
     execOutput := fun _ _ => Err "no such file or directory" |}.

(** An EC2 instance: the AWS metadata server answers for [instance-id] and
    [ami-id], and with 404 for anything else. *)
Definition ec2_host : World :=
  {| httpDo := fun url _ =>
       if bool_decide (url = "http://169.254.169.254/latest/meta-data/instance-id")
       then ok200 "i-0abc" ∅
       else if bool_decide (url = "http://169.254.169.254/latest/meta-data/ami-id")
       then ok200 "ami-deadbeef" ∅
       else notFound;
     osStat := fun _ => Some "no such file or directory";
     execOutput := fun _ _ => Err "no such file or directory" |}.

(** A Linux guest on Azure: only the agent's marker file is there. *)
Definition azure_host : World :=
  {| httpDo := fun _ _ => DoErr None "dial tcp: i/o timeout";
     osStat := fun path =>
       if bool_decide (path = "/var/lib/waagent/ovf-env.xml") then None
       else Some "no such file or directory";
     execOutput := fun _ _ => Err "no such file or directory" |}.

(** The body of the OpenStack example: an object with the fields [id] and
    [key1]. *)
Definition openstack_body : string :=
  "{" +:+ quoted "id" +:+ ":" +:+ quoted "abc" +:+ ","
      +:+ quoted "key1" +:+ ":" +:+ quoted "value1" +:+ "}".

(** An OpenStack guest whose metadata document is [openstack_body]. *)
Definition openstack_host : World :=
  {| httpDo := fun url _ =>
       if bool_decide
            (url = "http://169.254.169.254/openstack/2012-08-10/meta_data.json")
       then ok200 openstack_body ∅
       else notFound;
     osStat := fun _ => Some "no such file or directory";
     execOutput := fun _ _ => Err "no such file or directory" |}.

(** A metadata-like service that answers 200 to everything, without the
    header that Google's server sends. *)
Definition generic_metadata_host : World :=
  {| httpDo := fun _ _ => ok200 "ok" ∅;
     osStat := fun _ => Some "no such file or directory";
     execOutput := fun _ _ => Err "no such file or directory" |}.

(** A Joyent zone: the metadata command is there and knows the key
    [sdc:uuid]. *)
Definition joyent_host : World :=
  {| httpDo := fun _ _ => DoErr None "dial tcp: i/o timeout";
     osStat := fun path =>
       if bool_decide (path = "/usr/sbin/mdata-get") then None
       else Some "no such file or directory";
     execOutput := fun cmd args =>
       if bool_decide (cmd = "/usr/sbin/mdata-get" /\ args = ["sdc:uuid"])
       then Ok (line "0a1b2c")
       else Err "exit status 1" |}.

(** A server that keeps redirecting: the client gives up after ten
    redirects and returns the last response beside its error. *)
Definition found302 : Response :=
  {| StatusCode := 302; Status := "302 Found"; Header := ∅; Body := Ok "" |}.

Definition redirecting_host : World :=
  {| httpDo := fun _ _ => DoErr (Some found302) "stopped after 10 redirects";
     osStat := fun _ => Some "no such file or directory";
     execOutput := fun _ _ => Err "no such file or directory" |}.

(** The tasks finishing in the reverse of the registry order. *)
Definition reverse_schedule : list nat := [5; 4; 3; 2; 1; 0]%nat.


Definition is_hex (c : ascii) : bool :=
  let n := Z.of_N (N_of_ascii c) in
  ((48 <=? n) && (n <=? 57)) || ((97 <=? n) && (n <=? 102))
  || ((65 <=? n) && (n <=? 70)).

(** A sample of the URLs that [http.NewRequest] accepts: those in which
    every percent sign starts an escape of two hexadecimal digits. *)
Fixpoint escapes_ok (url : string) : bool :=
  match url with
  | EmptyString => true
  | String c r =>
      if bool_decide (c = "%"%char) then
        match r with
        | String a (String b r') => is_hex a && is_hex b && escapes_ok r'
        | _ => false
        end
      else escapes_ok r
  end.

(** ** Flat JSON objects *)

(** A byte that a JSON string literal holds as it is: printable ASCII
    other than the quote and the backslash. *)
Definition plain_byte (b : Z) : bool :=
  (32 <=? b) && (b <? 127) && negb (b =? 34) && negb (b =? 92).

Definition plain (s : string) : Prop :=
  Forall (fun b => plain_byte b = true) (bytes_of_string s).

(** The text of an object whose fields are strings, written without
    spaces: the members [quoted k : quoted v], separated by commas,
    between braces. *)
Fixpoint json_members (fields : list (string * string)) : string :=
  match fields with
  | [] => ""
  | [(k, v)] => quoted k +:+ ":" +:+ quoted v
  | (k, v) :: rest => quoted k +:+ ":" +:+ quoted v +:+ "," +:+ json_members rest
  end.

Definition json_object (fields : list (string * string)) : string :=
  "{" +:+ json_members fields +:+ "}".

(** The value of the last field named [k]. *)
Definition last_field (fields : list (string * string)) (k : string) : option string :=
  snd <$> head (filter (fun kv => kv.1 = k) (reverse fields)).

(** ** JSON objects as they are written *)








(** A text that does not start as an object: after the leading white
    space comes no opening brace. *)
Definition no_object (body : string) : Prop :=
  match skip_space (bytes_of_string body) with
  | 123 :: _ => False
  | _ => True
  end.


(** * The program *)

Section Program.

(** [http.NewRequest("GET", url, nil)] returns a request, or [nil] and an
    error when it cannot parse [url]. Which URLs it accepts is a matter of
    Go's library: the program is read for every such library. *)
Variable NewRequest_ok : string -> bool.

Definition http_NewRequest (url : string) : option Request * option error :=
  if NewRequest_ok url
  then (Some {| URL := url; ReqHeader := ∅ |}, None)
  else (None, Some ("parse " +:+ url)).

(** ** getUrl *)

(** The loop [for k, v := range headers { req.Header.Add(k, v) }]: with no
    header it does not touch [req]; the header names of the program are
    in canonical form already. *)
Definition add_headers (req : option Request) (headers : gmap string string)
  : IO (option Request) :=
  if decide (headers = ∅) then mret req
  else r ← deref req; mret (Some {| URL := URL r; ReqHeader := headers |}).

Definition getUrl (url : string) (headers : gmap string string)
  : IO (option string * option Response * option error) :=
  let '(req, _) := http_NewRequest url in
  req ← add_headers req headers;
  r ← client_Do req;
  match r with
  | DoErr resp err => mret (None, resp, Some err)
  | DoOk resp =>
      if negb (StatusCode resp =? 200)
      then mret (None, Some resp,
                 Some ("An error getting the url " +:+ url +:+ " : " +:+ Status resp))
      else
        match Body resp with
        | Err err => mret (None, Some resp, Some err)
        | Ok out => mret (Some out, Some resp, None)
        end
  end.

(** ** Base Cloud *)

Record BaseCloud := mkBaseCloud {
  name : string;
  isMyCloud : bool;
  supportsKey : bool
}.

Definition BaseCloud_cloudDescription (c : BaseCloud) : string := name c.
Definition BaseCloud_isEffectiveCloud (c : BaseCloud) : bool := isMyCloud c.
Definition BaseCloud_supportsKeys (c : BaseCloud) : bool := supportsKey c.

Definition BaseCloud_getKey (c : BaseCloud) (key : string)
  : IO (option string * option error) :=
  mret (None, Some "Cloud does not support keys").

Definition set_isMyCloud (b : bool) (c : BaseCloud) : BaseCloud :=
  {| name := name c; isMyCloud := b; supportsKey := supportsKey c |}.
Definition set_supportsKey (b : bool) (c : BaseCloud) : BaseCloud :=
  {| name := name c; isMyCloud := isMyCloud c; supportsKey := b |}.
Definition set_name (s : string) (c : BaseCloud) : BaseCloud :=
  {| name := s; isMyCloud := isMyCloud c; supportsKey := supportsKey c |}.

(** ** Clouds that base their information on a simple http get *)

Record SimpleUrlBasedCloud := mkSimpleUrlBasedCloud {
  Base : BaseCloud;
  baseUrl : string;
  testUrl : string;
  metadata : option string
}.

Definition SimpleUrlBasedCloud_detectEffectiveCloud (c : SimpleUrlBasedCloud)
  : IO SimpleUrlBasedCloud :=
  '(metadata', _, err) ← getUrl (testUrl c) ∅;
  mret {| Base := set_isMyCloud (bool_decide (err = None)) (Base c);
          baseUrl := baseUrl c;
          testUrl := testUrl c;
          metadata := metadata' |}.

Definition SimpleUrlBasedCloud_getKey (c : SimpleUrlBasedCloud) (key : string)
  : IO (option string * option error) :=
  let url := baseUrl c +:+ key in
  '(metadata', _, err) ← getUrl url ∅;
  mret (metadata', err).

(** The zero value of the struct, as [AWSCloud{}] and its siblings start. *)
Definition BaseCloud_zero : BaseCloud :=
  {| name := ""; isMyCloud := false; supportsKey := false |}.
Definition SimpleUrlBasedCloud_zero : SimpleUrlBasedCloud :=
  {| Base := BaseCloud_zero; baseUrl := ""; testUrl := ""; metadata := None |}.

Definition with_Base (f : BaseCloud -> BaseCloud) (c : SimpleUrlBasedCloud)
  : SimpleUrlBasedCloud :=
  {| Base := f (Base c); baseUrl := baseUrl c; testUrl := testUrl c;
     metadata := metadata c |}.
Definition set_baseUrl (s : string) (c : SimpleUrlBasedCloud) : SimpleUrlBasedCloud :=
  {| Base := Base c; baseUrl := s; testUrl := testUrl c; metadata := metadata c |}.
Definition set_testUrl (s : string) (c : SimpleUrlBasedCloud) : SimpleUrlBasedCloud :=
  {| Base := Base c; baseUrl := baseUrl c; testUrl := s; metadata := metadata c |}.

(** ** AWS *)

Definition NewAWSCloud : SimpleUrlBasedCloud :=
  let c := SimpleUrlBasedCloud_zero in
  let c := set_baseUrl "http://169.254.169.254/latest/meta-data/" c in
  let c := set_testUrl "http://169.254.169.254/latest/meta-data/instance-id" c in
  let c := with_Base (set_name "AWS") c in
  let c := with_Base (set_supportsKey true) c in
  c.

(** ** OpenStack *)

Definition NewOpenStackCloud : SimpleUrlBasedCloud :=
  let c := SimpleUrlBasedCloud_zero in
  let c := set_testUrl "http://169.254.169.254/openstack/2012-08-10/meta_data.json" c in
  let c := with_Base (set_supportsKey true) c in
  let c := with_Base (set_name "OpenStack") c in
  c.

Definition OpenStackCloud_getKey (c : SimpleUrlBasedCloud) (key : string)
  : IO (option string * option error) :=
  body ← deref (metadata c);
  let m := json_Decode_map body in
  let v := map_index m key in
  if bool_decide (v = "")
  then mret (None, Some ("No such key " +:+ key))
  else mret (Some v, None).

(** ** Digital Ocean *)

Definition NewDigitalOceanCloud : SimpleUrlBasedCloud :=
  let c := SimpleUrlBasedCloud_zero in
  let c := set_baseUrl "http://169.254.169.254/metadata/v1/" c in
  let c := set_testUrl "http://169.254.169.254/metadata/v1/id" c in
  let c := with_Base (set_name "Digital Ocean") c in
  let c := with_Base (set_supportsKey true) c in
  c.

(** ** GCE *)

Definition NewGCECloud : BaseCloud :=
  let c := BaseCloud_zero in
  let c := set_supportsKey true c in
  let c := set_name "GCE" c in
  c.

Definition GCECloud_detectEffectiveCloud (c : BaseCloud) : IO BaseCloud :=
  let c := set_supportsKey true c in
  let url := "http://metadata.google.internal/" in
  let headers : gmap string string := {[ "Metadata-Flavor" := "Google" ]} in
  '(_, resp, err) ← getUrl url headers;
  match err with
  | Some _ => mret (set_isMyCloud false c)
  | None =>
      r ← deref resp;
      mret (set_isMyCloud
              (bool_decide (Header_Get (Header r) "Metadata-Flavor" = "Google")) c)
  end.

Definition GCECloud_getKey (c : BaseCloud) (key : string)
  : IO (option string * option error) :=
  let url := "http://metadata.google.internal/computeMetadata/v1/" +:+ key in
  let headers : gmap string string := {[ "Metadata-Flavor" := "Google" ]} in
  '(metadata', _, err) ← getUrl url headers;
  mret (metadata', err).

(** ** Azure *)

Definition AzureCloud_detectEffectiveCloud (c : BaseCloud) : IO BaseCloud :=
  let c := set_supportsKey true c in
  let c := set_isMyCloud false c in
  err ← os_Stat "/var/lib/waagent/ovf-env.xml";
  match err with
  | None => mret (set_isMyCloud true c)
  | Some _ => mret c
  end.

(** ** Joyent *)

Definition NewJoyentCloud : BaseCloud :=
  let c := BaseCloud_zero in
  let c := set_supportsKey true c in
  let c := set_name "Joyent" c in
  c.

Definition JoyentCloud_detectEffectiveCloud (c : BaseCloud) : IO BaseCloud :=
  let c := set_supportsKey true c in
  let c := set_isMyCloud false c in
  err ← os_Stat "/usr/sbin/mdata-get";
  match err with
  | None => mret (set_isMyCloud true c)
  | Some _ => mret c
  end.

Definition JoyentCloud_getKey (c : BaseCloud) (key : string)
  : IO (option string * option error) :=
  let cmd := "/usr/sbin/mdata-get" in
  r ← exec_Output cmd [key];
  match r with
  | Err err => mret (None, Some err)
  | Ok out => mret (Some out, None)
  end.

(** ** The CloudDetector interface

    A value of the interface is a pointer to one of the six struct types;
    the registry holds the only pointer to each, so an entry of the list
    is the struct itself. A method that a struct does not define is the
    one promoted from the struct it embeds. *)

Inductive CloudDetector :=
  | AWSCloud (c : SimpleUrlBasedCloud)
  | GCECloud (c : BaseCloud)
  | AzureCloud (c : BaseCloud)
  | OpenStackCloud (c : SimpleUrlBasedCloud)
  | DigitalOceanCloud (c : SimpleUrlBasedCloud)
  | JoyentCloud (c : BaseCloud).

Definition base_of (cd : CloudDetector) : BaseCloud :=
  match cd with
  | AWSCloud c | OpenStackCloud c | DigitalOceanCloud c => Base c
  | GCECloud c | AzureCloud c | JoyentCloud c => c
  end.

Definition detectEffectiveCloud (cd : CloudDetector) : IO CloudDetector :=
  match cd with
  | AWSCloud c => AWSCloud <$> SimpleUrlBasedCloud_detectEffectiveCloud c
  | OpenStackCloud c => OpenStackCloud <$> SimpleUrlBasedCloud_detectEffectiveCloud c
  | DigitalOceanCloud c => DigitalOceanCloud <$> SimpleUrlBasedCloud_detectEffectiveCloud c
  | GCECloud c => GCECloud <$> GCECloud_detectEffectiveCloud c
  | AzureCloud c => AzureCloud <$> AzureCloud_detectEffectiveCloud c
  | JoyentCloud c => JoyentCloud <$> JoyentCloud_detectEffectiveCloud c
  end.

Definition isEffectiveCloud (cd : CloudDetector) : bool :=
  BaseCloud_isEffectiveCloud (base_of cd).

Definition supportsKeys (cd : CloudDetector) : bool :=
  BaseCloud_supportsKeys (base_of cd).

Definition cloudDescription (cd : CloudDetector) : string :=
  BaseCloud_cloudDescription (base_of cd).

Definition getKey (cd : CloudDetector) (key : string)
  : IO (option string * option error) :=
  match cd with
  | AWSCloud c => SimpleUrlBasedCloud_getKey c key
  | DigitalOceanCloud c => SimpleUrlBasedCloud_getKey c key
  | OpenStackCloud c => OpenStackCloud_getKey c key
  | GCECloud c => GCECloud_getKey c key
  | AzureCloud c => BaseCloud_getKey c key
  | JoyentCloud c => JoyentCloud_getKey c key
  end.

Definition setupClouds : list CloudDetector :=
  let awsCloud := NewAWSCloud in
  let gceCloud := NewGCECloud in
  let azureCloud := set_name "Azure" BaseCloud_zero in
  let openStackCloud := NewOpenStackCloud in
  let digitalOceanCloud := NewDigitalOceanCloud in
  let joyentCloud := NewJoyentCloud in
  [ AWSCloud awsCloud;
    GCECloud gceCloud;
    AzureCloud azureCloud;
    OpenStackCloud openStackCloud;
    DigitalOceanCloud digitalOceanCloud;
    JoyentCloud joyentCloud ].

(** ** Command line options *)

(** The text that [setupOptions] builds for [flag.Usage]. It reads
    [supportsKeys] of every registered probe before any detection runs. *)
Definition usageMessage (cdList : list CloudDetector) : string :=
  let usageMessage := "Usage: mycloud
--------------
This program will inspect the local system to determine what cloud it is running
in.  If no cloud can be determined it will return a non zero value and print
the UNKNOWN to stdout.  If a cloud is found it will return 0 and print one of
the following values to stdout:
" in
  let usageMessage :=
    foldl (fun msg cd => msg +:+ tab +:+ cloudDescription cd +:+ nl)
      usageMessage cdList in
  let usageMessage := usageMessage +:+ "
Optionally this can be used to fetch keys from the clouds metadata server on the
clouds that support it.  The following clouds support fetching specific metadata
keys:
" in
  let usageMessage :=
    foldl (fun msg cd =>
             if supportsKeys cd then msg +:+ tab +:+ cloudDescription cd +:+ nl
             else msg)
      usageMessage cdList in
  usageMessage +:+ "

[options]
".

(** [globalOpts] after [setupOptions]; [None] when the flag package ended
    the process. *)
Definition setupOptions (cdList : list CloudDetector) (args : list string)
  : option CommandOptions :=
  flag_Parse args {| verbose := false; key := "" |}.

(** ** The detection tasks and their join

    [main] starts one goroutine per entry of the registry and waits for all
    of them. A goroutine reads and writes only its own entry, so a run of
    the six tasks is modelled by the order in which they take effect: a
    schedule is a list of registry indices, and the task of index [i]
    replaces entry [i] by what [detectEffectiveCloud] leaves there. *)

Definition detectTask (i : nat) (cdList : list CloudDetector)
  : IO (list CloudDetector) :=
  match cdList !! i with
  | Some cd => cd' ← detectEffectiveCloud cd; mret (<[i := cd']> cdList)
  | None => mret cdList
  end.

Fixpoint runTasks (sched : list nat) (cdList : list CloudDetector)
  : IO (list CloudDetector) :=
  match sched with
  | [] => mret cdList
  | i :: rest => cdList' ← detectTask i cdList; runTasks rest cdList'
  end.

(** A schedule of a registry of [n] entries runs every task once. *)
Definition schedule (n : nat) (sched : list nat) : Prop :=
  sched ≡ₚ seq 0 n.

(** ** The scan after the join *)

(** The body of the loop of [main] for an entry that reports presence; it
    returns the status that [os.Exit] is called with. *)
Definition report (opts : CommandOptions) (cd : CloudDetector) : IO Z :=
  let rc := 0 in
  Printf (line (cloudDescription cd));;
  if negb (bool_decide (key opts = "")) then
    '(val, err) ← getKey cd (key opts);
    match err with
    | Some _ => Printf (line "UNKNOWN");; mret 1
    | None => v ← deref val; Printf (line v);; mret rc
    end
  else mret rc.

(** The loop of [main] after [wg.Wait()], and the two lines after it. *)
Fixpoint resolve (opts : CommandOptions) (cdList : list CloudDetector) : IO Z :=
  match cdList with
  | [] => Printf (line "UNKNOWN");; mret 1
  | cd :: rest =>
      if isEffectiveCloud cd then report opts cd
      else resolve opts rest
  end.

(** ** main *)

(** How the process ends: [os.Exit(rc)] after writing [stdout], with the
    transport calls made after the join; an exit inside the flag package;
    or a panic after writing [stdout]. *)
Inductive Exit :=
  | Exited (stdout : string) (rc : Z) (calls : list Event)
  | FlagExit
  | Crashed (stdout : string) (msg : string).

(** [main] with the arguments [args], the detection tasks taking effect in
    the order [sched] against the transport [wd], and the scan and key
    fetch (after the join) against the transport [wk]. *)
Definition main (args : list string) (sched : list nat) (wd wk : World) : Exit :=
  let cdList := setupClouds in
  match setupOptions cdList args with
  | None => FlagExit
  | Some globalOpts =>
      match runTasks sched cdList wd with
      | (Panic msg, _) => Crashed "" msg
      | (Normal cdList, _) =>
          match resolve globalOpts cdList wk with
          | (Panic msg, t) => Crashed (stdout_of t) msg
          | (Normal rc, t) => Exited (stdout_of t) rc (calls_of t)
          end
      end
  end.

(** ** Vocabulary of the properties *)

(** The entry that a detection task leaves for [cd]. *)
Definition detected (w : World) (cd : CloudDetector) : CloudDetector :=
  match (detectEffectiveCloud cd w).1 with
  | Normal cd' => cd'
  | Panic _ => cd
  end.

(** The first entry, in the order of the list, that reports presence,
    with its index. *)
Definition winner (cdList : list CloudDetector) : option (nat * CloudDetector) :=
  list_find (fun cd => isEffectiveCloud cd = true) cdList.

(** A GET fails at the transport: no response (network error, timeout), a
    status other than 200, or a body that cannot be read. *)
Definition http_failure (w : World) (url : string) (headers : gmap string string)
  : bool :=
  match httpDo w url headers with
  | DoErr _ _ => true
  | DoOk resp =>
      negb (StatusCode resp =? 200)
      || match Body resp with Err _ => true | Ok _ => false end
  end.

(** The request of the GCE probe's detection. *)
Definition gce_url : string := "http://metadata.google.internal/".
Definition gce_headers : gmap string string := {[ "Metadata-Flavor" := "Google" ]}.

(** The transport call of a probe's detection fails. *)
Definition transport_failure (w : World) (cd : CloudDetector) : bool :=
  match cd with
  | AWSCloud c | OpenStackCloud c | DigitalOceanCloud c =>
      http_failure w (testUrl c) ∅
  | GCECloud _ => http_failure w gce_url gce_headers
  | AzureCloud _ => bool_decide (osStat w "/var/lib/waagent/ovf-env.xml" ≠ None)
  | JoyentCloud _ => bool_decide (osStat w "/usr/sbin/mdata-get" ≠ None)
  end.

(** The URL that the detection of a probe requests, when it requests one,
    and the URL that its key fetch requests. *)
Definition detect_url (cd : CloudDetector) : option string :=
  match cd with
  | AWSCloud c | OpenStackCloud c | DigitalOceanCloud c => Some (testUrl c)
  | GCECloud _ => Some gce_url
  | AzureCloud _ | JoyentCloud _ => None
  end.

Definition key_url (cd : CloudDetector) (k : string) : option string :=
  match cd with
  | AWSCloud c | DigitalOceanCloud c => Some (baseUrl c +:+ k)
  | GCECloud _ => Some ("http://metadata.google.internal/computeMetadata/v1/" +:+ k)
  | OpenStackCloud _ | AzureCloud _ | JoyentCloud _ => None
  end.

(** [http.NewRequest] accepts the URL, when there is one. *)
Definition accepted (url : option string) : Prop :=
  match url with
  | Some u => NewRequest_ok u = true
  | None => True
  end.

(** Two entries of the same concrete type. *)
Definition same_kind (cd cd' : CloudDetector) : Prop :=
  match cd, cd' with
  | AWSCloud _, AWSCloud _ | GCECloud _, GCECloud _ | AzureCloud _, AzureCloud _
  | OpenStackCloud _, OpenStackCloud _
  | DigitalOceanCloud _, DigitalOceanCloud _
  | JoyentCloud _, JoyentCloud _ => True
  | _, _ => False
  end.

(** A URL-based entry that reports presence holds a body. *)
Definition metadata_cached (cd : CloudDetector) : Prop :=
  match cd with
  | AWSCloud c | OpenStackCloud c | DigitalOceanCloud c =>
      isMyCloud (Base c) = true -> is_Some (metadata c)
  | _ => True
  end.

(** The two ways a GET for a key ends: a returned pair in which a [nil]
    error comes with a value, or a panic on a URL that [http.NewRequest]
    rejected. *)
Inductive fetch_result (ok : Prop)
  : outcome (option string * option error) * list Event -> Prop :=
  | fetch_returns val err t :
      ok -> (err = None -> is_Some val) -> printed t = [] -> calls_of t = t ->
      fetch_result ok (Normal (val, err), t)
  | fetch_panics msg :
      ~ ok -> fetch_result ok (Panic msg, []).

(** What the program does once the scan has stopped at [cd]. *)
Definition reported (opts : CommandOptions) (cd : CloudDetector) (w : World) : Exit :=
  match report opts cd w with
  | (Panic msg, t) => Crashed (stdout_of t) msg
  | (Normal rc, t) => Exited (stdout_of t) rc (calls_of t)
  end.

(** The headers of the GET of a key fetch. *)
Definition key_headers (cd : CloudDetector) : gmap string string :=
  match cd with
  | GCECloud _ => gce_headers
  | _ => ∅
  end.

(** The transport call of a probe's detection. *)
Definition detect_event (cd : CloudDetector) : Event :=
  match cd with
  | AWSCloud c | OpenStackCloud c | DigitalOceanCloud c => EvHttpGet (testUrl c) ∅
  | GCECloud _ => EvHttpGet gce_url gce_headers
  | AzureCloud _ => EvStat "/var/lib/waagent/ovf-env.xml"
  | JoyentCloud _ => EvStat "/usr/sbin/mdata-get"
  end.

(** The body that a GET brings back: that of a response with status 200
    whose body can be read. *)
Definition http_body (w : World) (url : string) (headers : gmap string string)
  : option string :=
  match httpDo w url headers with
  | DoOk r =>
      if StatusCode r =? 200
      then match Body r with Ok b => Some b | Err _ => None end
      else None
  | DoErr _ _ => None
  end.

(** What the host answers to a probe, read off the transport alone. *)
Definition probe_answers (w : World) (cd : CloudDetector) : bool :=
  match cd with
  | AWSCloud c | OpenStackCloud c | DigitalOceanCloud c =>
      bool_decide (is_Some (http_body w (testUrl c) ∅))
  | GCECloud _ =>
      bool_decide (is_Some (http_body w gce_url gce_headers))
      && match httpDo w gce_url gce_headers with
         | DoOk r => bool_decide (Header_Get (Header r) "Metadata-Flavor" = "Google")
         | DoErr _ _ => false
         end
  | AzureCloud _ => bool_decide (osStat w "/var/lib/waagent/ovf-env.xml" = None)
  | JoyentCloud _ => bool_decide (osStat w "/usr/sbin/mdata-get" = None)
  end.

(** The pieces of the usage text. *)
Definition usage_head : string := "Usage: mycloud
--------------
This program will inspect the local system to determine what cloud it is running
in.  If no cloud can be determined it will return a non zero value and print
the UNKNOWN to stdout.  If a cloud is found it will return 0 and print one of
the following values to stdout:
".

Definition usage_keys_head : string := "
Optionally this can be used to fetch keys from the clouds metadata server on the
clouds that support it.  The following clouds support fetching specific metadata
keys:
".

Definition usage_tail : string := "

[options]
".

Definition usage_entry (cd : CloudDetector) : string :=
  tab +:+ cloudDescription cd +:+ nl.

(** The text of the lines of a list, one after the other. *)
Definition unlines (l : list string) : string := foldr String.append "" l.

(** Two probes of the same type that were built alike: the same name and,
    for the URL-based ones, the same URLs and [supportsKey]. *)
Definition same_config (cd1 cd2 : CloudDetector) : Prop :=
  match cd1, cd2 with
  | AWSCloud c1, AWSCloud c2
  | OpenStackCloud c1, OpenStackCloud c2
  | DigitalOceanCloud c1, DigitalOceanCloud c2 =>
      name (Base c1) = name (Base c2)
      /\ supportsKey (Base c1) = supportsKey (Base c2)
      /\ baseUrl c1 = baseUrl c2 /\ testUrl c1 = testUrl c2
  | GCECloud c1, GCECloud c2
  | AzureCloud c1, AzureCloud c2
  | JoyentCloud c1, JoyentCloud c2 => name c1 = name c2
  | _, _ => False
  end.

(** * Properties *)

(** ** The monad *)

Lemma io_bind_normal {A B} (m : IO A) (f : A -> IO B) w a t :
  m w = (Normal a, t) ->
  (m ≫= f) w = ((f a w).1, t ++ (f a w).2).
Proof.
  intros Hm. unfold mbind, IO_bind, io_bind. rewrite Hm.
  by destruct (f a w).
Qed.

Lemma io_bind_panic {A B} (m : IO A) (f : A -> IO B) w msg t :
  m w = (Panic msg, t) ->
  (m ≫= f) w = (Panic msg, t).
Proof. intros Hm. unfold mbind, IO_bind, io_bind. by rewrite Hm. Qed.

Lemma io_fmap_normal {A B} (m : IO A) (f : A -> B) w a t :
  m w = (Normal a, t) ->
  (f <$> m) w = (Normal (f a), t).
Proof.
  intros Hm. unfold fmap, IO_fmap, io_bind. rewrite Hm. simpl.
  by rewrite app_nil_r.
Qed.

Ltac io_unfold :=
  unfold mbind, mret, fmap, IO_bind, IO_ret, IO_fmap, io_bind, io_ret,
    client_Do, roundTrip, os_Stat, exec_Output, Printf, deref, panic in *.

(** ** getUrl *)

(** On a URL that [http.NewRequest] accepts, [getUrl] makes one GET and
    returns; its error is [nil] exactly when the response has status 200
    and a readable body, which is then the string it returns. *)
Lemma getUrl_run url headers w :
  NewRequest_ok url = true ->
  exists body resp err,
    getUrl url headers w = (Normal (body, resp, err), [EvHttpGet url headers])
    /\ (http_failure w url headers = true -> body = None /\ is_Some err)
    /\ (http_failure w url headers = false ->
        err = None /\ is_Some body /\
        exists r, resp = Some r /\ httpDo w url headers = DoOk r
                  /\ StatusCode r = 200 /\ Body r = Ok (default "" body)).
Proof.
  intros Hok.
  assert (exists req,
    add_headers (Some {| URL := url; ReqHeader := ∅ |}) headers w = (Normal (Some req), [])
    /\ URL req = url /\ ReqHeader req = headers) as (req & Hreq & Hu & Hh).
  { unfold add_headers. destruct (decide (headers = ∅)) as [-> |]; eauto. }
  unfold getUrl, http_NewRequest, http_failure. rewrite Hok.
  rewrite (io_bind_normal _ _ _ _ _ Hreq). io_unfold. simpl. rewrite Hu, Hh.
  destruct (httpDo w url headers) as [r | r e]; simpl.
  - destruct (StatusCode r =? 200) eqn:Hs; simpl.
    + apply Z.eqb_eq in Hs.
      destruct (Body r) as [b | e] eqn:Hb; simpl;
        do 3 eexists; (split; [reflexivity |]); split; intros; try discriminate;
        eauto 10.
    + do 3 eexists; (split; [reflexivity |]); split; intros; try discriminate;
        eauto.
  - do 3 eexists; (split; [reflexivity |]); split; intros; try discriminate;
      eauto.
Qed.

(** On a URL that [http.NewRequest] rejects, the request is [nil] and
    [getUrl] panics before any GET. *)
Lemma getUrl_rejected url headers w :
  NewRequest_ok url = false ->
  getUrl url headers w = (Panic nil_dereference, []).
Proof.
  intros Hno. unfold getUrl, http_NewRequest, add_headers. rewrite Hno.
  destruct (decide (headers = ∅)); reflexivity.
Qed.

(** ** The detection of each kind of probe *)

Section Detection.
Variable w : World.

Lemma SimpleUrlBasedCloud_detect_run (c : SimpleUrlBasedCloud) :
  NewRequest_ok (testUrl c) = true ->
  exists c',
    SimpleUrlBasedCloud_detectEffectiveCloud c w
      = (Normal c', [EvHttpGet (testUrl c) ∅])
    /\ name (Base c') = name (Base c)
    /\ supportsKey (Base c') = supportsKey (Base c)
    /\ baseUrl c' = baseUrl c /\ testUrl c' = testUrl c
    /\ isMyCloud (Base c') = negb (http_failure w (testUrl c) ∅)
    /\ (isMyCloud (Base c') = true -> is_Some (metadata c'))
    /\ (isMyCloud (Base c') = false -> metadata c' = None).
Proof.
  intros Hok.
  destruct (getUrl_run (testUrl c) ∅ w Hok)
    as (body & resp & err & Hrun & Hfail & Hsucc).
  unfold SimpleUrlBasedCloud_detectEffectiveCloud.
  rewrite (io_bind_normal _ _ _ _ _ Hrun). simpl.
  eexists. split; [reflexivity |]. simpl. repeat split.
  - destruct (http_failure w (testUrl c) ∅).
    + destruct Hfail as [_ [e ->]]; done.
    + destruct Hsucc as [-> _]; done.
  - intros Hp. destruct (http_failure w (testUrl c) ∅).
    + destruct Hfail as [_ [e ->]]; [done | discriminate].
    + by destruct Hsucc as (_ & Hb & _).
  - intros Hp. destruct (http_failure w (testUrl c) ∅).
    + by destruct Hfail as [-> _].
    + destruct Hsucc as [-> _]; [done | discriminate].
Qed.

Lemma GCECloud_detect_run (c : BaseCloud) :
  NewRequest_ok gce_url = true ->
  exists c',
    GCECloud_detectEffectiveCloud c w = (Normal c', [EvHttpGet gce_url gce_headers])
    /\ name c' = name c
    /\ supportsKey c' = true
    /\ (http_failure w gce_url gce_headers = true -> isMyCloud c' = false)
    /\ (forall r, httpDo w gce_url gce_headers = DoOk r ->
        http_failure w gce_url gce_headers = false ->
        isMyCloud c'
        = bool_decide (Header_Get (Header r) "Metadata-Flavor" = "Google")).
Proof.
  intros Hurl.
  destruct (getUrl_run gce_url gce_headers w Hurl)
    as (body & resp & err & Hrun & Hfail & Hsucc).
  unfold GCECloud_detectEffectiveCloud. fold gce_url gce_headers.
  rewrite (io_bind_normal _ _ _ _ _ Hrun). simpl.
  destruct (http_failure w gce_url gce_headers).
  - destruct Hfail as [_ [e ->]]; [done |]. simpl.
    eexists. split; [reflexivity |]. simpl. repeat split; done.
  - destruct Hsucc as (-> & _ & r & -> & Hdo & _); [done |]. simpl.
    eexists. split; [reflexivity |]. simpl. repeat split; try done.
    intros r' Hr' _. rewrite Hdo in Hr'. by injection Hr' as ->.
Qed.

Lemma AzureCloud_detect_run (c : BaseCloud) :
  exists c',
    AzureCloud_detectEffectiveCloud c w
      = (Normal c', [EvStat "/var/lib/waagent/ovf-env.xml"])
    /\ name c' = name c
    /\ supportsKey c' = true
    /\ isMyCloud c' = bool_decide (osStat w "/var/lib/waagent/ovf-env.xml" = None).
Proof.
  unfold AzureCloud_detectEffectiveCloud. io_unfold.
  destruct (osStat w "/var/lib/waagent/ovf-env.xml"); simpl;
    eexists; (split; [reflexivity |]); done.
Qed.

Lemma JoyentCloud_detect_run (c : BaseCloud) :
  exists c',
    JoyentCloud_detectEffectiveCloud c w = (Normal c', [EvStat "/usr/sbin/mdata-get"])
    /\ name c' = name c
    /\ supportsKey c' = true
    /\ isMyCloud c' = bool_decide (osStat w "/usr/sbin/mdata-get" = None).
Proof.
  unfold JoyentCloud_detectEffectiveCloud. io_unfold.
  destruct (osStat w "/usr/sbin/mdata-get"); simpl;
    eexists; (split; [reflexivity |]); done.
Qed.

(** What the interface method does to an entry whose detection URL is
    accepted: it returns, it keeps the concrete type, the name and the
    URL, and a failed transport call leaves the entry absent. *)
Lemma detect_run (cd : CloudDetector) :
  accepted (detect_url cd) ->
  exists cd' t,
    detectEffectiveCloud cd w = (Normal cd', t)
    /\ same_kind cd cd'
    /\ cloudDescription cd' = cloudDescription cd
    /\ detect_url cd' = detect_url cd
    /\ (transport_failure w cd = true -> isEffectiveCloud cd' = false)
    /\ metadata_cached cd'.
Proof.
  destruct cd as [c | c | c | c | c | c]; simpl; intros Hok.
  1, 4, 5:
    destruct (SimpleUrlBasedCloud_detect_run c Hok)
      as (c' & Hrun & Hn & _ & _ & Hu & Hp & Hm & _);
    rewrite (io_fmap_normal _ _ _ _ _ Hrun);
    do 2 eexists; (split; [reflexivity |]);
    unfold cloudDescription, isEffectiveCloud; simpl;
    repeat split; try done; [by rewrite Hu |];
    unfold BaseCloud_isEffectiveCloud; rewrite Hp; by intros ->.
  - destruct (GCECloud_detect_run c Hok) as (c' & Hrun & Hn & _ & Hf & _).
    rewrite (io_fmap_normal _ _ _ _ _ Hrun).
    do 2 eexists. split; [reflexivity |]. repeat split; done.
  - destruct (AzureCloud_detect_run c) as (c' & Hrun & Hn & _ & Hp).
    rewrite (io_fmap_normal _ _ _ _ _ Hrun).
    do 2 eexists. split; [reflexivity |]. repeat split; try done.
    unfold isEffectiveCloud, BaseCloud_isEffectiveCloud. simpl. rewrite Hp.
    intros H%bool_decide_eq_true. by apply bool_decide_eq_false.
  - destruct (JoyentCloud_detect_run c) as (c' & Hrun & Hn & _ & Hp).
    rewrite (io_fmap_normal _ _ _ _ _ Hrun).
    do 2 eexists. split; [reflexivity |]. repeat split; try done.
    unfold isEffectiveCloud, BaseCloud_isEffectiveCloud. simpl. rewrite Hp.
    intros H%bool_decide_eq_true. by apply bool_decide_eq_false.
Qed.

Lemma detected_accepted (cd : CloudDetector) :
  accepted (detect_url cd) -> accepted (detect_url (detected w cd)).
Proof.
  intros Hok. unfold detected.
  destruct (detect_run cd Hok) as (cd' & t & -> & _ & _ & Hu & _).
  simpl. by rewrite Hu.
Qed.

End Detection.

(** ** The join *)

Section Join.
Variable w : World.

(** A task replaces its own entry by the detected one and touches no
    other entry. *)
Lemma detectTask_run (i : nat) (l : list CloudDetector) :
  Forall (fun cd => accepted (detect_url cd)) l ->
  (detectTask i l w).1 = Normal (alter (detected w) i l).
Proof.
  intros Hl. unfold detectTask. destruct (l !! i) as [cd |] eqn:Hi.
  - destruct (detect_run w cd) as (cd' & t & Hrun & _).
    { by eapply Forall_lookup_1 in Hl. }
    rewrite (io_bind_normal _ _ _ _ _ Hrun). simpl. f_equal.
    rewrite list_insert_alter. apply list_alter_ext; [| done].
    intros x Hx. rewrite Hi in Hx. injection Hx as <-.
    unfold detected. by rewrite Hrun.
  - simpl. f_equal. apply list_eq. intros j.
    destruct (decide (i = j)) as [<- |].
    + by rewrite list_lookup_alter_eq, Hi.
    + by rewrite list_lookup_alter_ne.
Qed.

Lemma alter_detected_accepted (i : nat) (l : list CloudDetector) :
  Forall (fun cd => accepted (detect_url cd)) l ->
  Forall (fun cd => accepted (detect_url cd)) (alter (detected w) i l).
Proof.
  rewrite !Forall_lookup. intros Hl j cd.
  destruct (decide (i = j)) as [<- |].
  - rewrite list_lookup_alter_eq. intros (cd0 & H0 & ->)%fmap_Some.
    apply detected_accepted. eauto.
  - rewrite list_lookup_alter_ne by done. eauto.
Qed.

Lemma runTasks_run (sched : list nat) (l : list CloudDetector) :
  Forall (fun cd => accepted (detect_url cd)) l ->
  (runTasks sched l w).1
  = Normal (foldl (fun l i => alter (detected w) i l) l sched).
Proof.
  revert l. induction sched as [| i rest IH]; intros l Hl; [done |].
  simpl. pose proof (detectTask_run i l Hl) as Hi.
  destruct (detectTask i l w) as [o t] eqn:Ht. simpl in Hi. subst o.
  rewrite (io_bind_normal _ _ _ _ _ Ht). simpl.
  apply IH. by apply alter_detected_accepted.
Qed.

Lemma foldl_alter_lookup {A} (f : A -> A) (sched : list nat) (l : list A) (j : nat) :
  NoDup sched ->
  foldl (fun l i => alter f i l) l sched !! j
  = if decide (j ∈ sched) then f <$> l !! j else l !! j.
Proof.
  revert l. induction sched as [| i rest IH]; intros l Hnd; [done |].
  apply NoDup_cons in Hnd as [Hi Hnd]. simpl. rewrite IH by done.
  destruct (decide (i = j)) as [<- |].
  - rewrite decide_False by done.
    rewrite decide_True by (apply elem_of_cons; by left).
    apply list_lookup_alter_eq.
  - rewrite list_lookup_alter_ne by done.
    destruct (decide (j ∈ rest)).
    + by rewrite decide_True by (apply elem_of_cons; by right).
    + by rewrite decide_False by (intros [? | ?]%elem_of_cons; congruence).
Qed.

(** Whatever the order in which the tasks finish, the join leaves every
    entry detected once. *)
Lemma join_schedule (sched : list nat) (l : list CloudDetector) :
  Forall (fun cd => accepted (detect_url cd)) l ->
  schedule (length l) sched ->
  (runTasks sched l w).1 = Normal (detected w <$> l).
Proof.
  intros Hl Hs. rewrite runTasks_run by done. f_equal. apply list_eq. intros j.
  rewrite foldl_alter_lookup, list_lookup_fmap.
  - case_decide as Hj; [done |].
    unfold schedule in Hs. rewrite Hs, elem_of_seq in Hj.
    rewrite (lookup_ge_None_2 l j) by lia. done.
  - unfold schedule in Hs. rewrite Hs. apply NoDup_seq.
Qed.

End Join.

(** ** The scan *)

(** The loop stops at the first entry that reports presence and reports
    it; with no such entry the program prints [UNKNOWN] and exits 1. *)
Lemma resolve_winner (opts : CommandOptions) (l : list CloudDetector) :
  resolve opts l
  = match winner l with
    | Some (_, cd) => report opts cd
    | None => Printf (line "UNKNOWN");; mret 1
    end.
Proof.
  unfold winner. induction l as [| cd l IH]; [done |]. simpl.
  destruct (isEffectiveCloud cd) eqn:Hp.
  - by rewrite decide_True.
  - rewrite decide_False by (by intros ?). rewrite IH.
    by destruct (list_find _ l) as [[i x] |].
Qed.

(** The position of the winner is a function of the presence flags. *)
Lemma winner_presence (l1 l2 : list CloudDetector) :
  isEffectiveCloud <$> l1 = isEffectiveCloud <$> l2 ->
  fst <$> winner l1 = fst <$> winner l2.
Proof.
  intros Heq. unfold winner.
  assert (forall l : list CloudDetector,
    fst <$> list_find (fun cd => isEffectiveCloud cd = true) l
    = fst <$> list_find (fun b : bool => b = true) (isEffectiveCloud <$> l)) as H.
  { intros l. rewrite list_find_fmap.
    by destruct (list_find _ l) as [[i x] |]. }
  by rewrite !H, Heq.
Qed.

(** ** The key fetch *)

Lemma getUrl_key_cases url headers w :
  fetch_result (NewRequest_ok url = true)
    ((getUrl url headers ≫= fun '(metadata', _, err) => mret (metadata', err)) w).
Proof.
  destruct (NewRequest_ok url) eqn:Hok.
  - destruct (getUrl_run url headers w Hok)
      as (body & resp & err & Hrun & Hfail & Hsucc).
    rewrite (io_bind_normal _ _ _ _ _ Hrun). simpl.
    constructor; try done. intros ->.
    destruct (http_failure w url headers).
    + destruct Hfail as [_ [e ?]]; done.
    + by destruct Hsucc as (_ & ? & _).
  - rewrite (io_bind_panic _ _ _ _ _ (getUrl_rejected url headers w Hok)).
    by constructor.
Qed.

(** [getKey] of an entry that holds a body when it reports presence: it
    panics only on a rejected URL. *)
Lemma getKey_cases (cd : CloudDetector) (k : string) (w : World) :
  metadata_cached cd ->
  isEffectiveCloud cd = true ->
  fetch_result (accepted (key_url cd k)) (getKey cd k w).
Proof.
  intros Hm Hp. destruct cd as [c | c | c | c | c | c]; simpl.
  1, 5: apply getUrl_key_cases.
  - apply getUrl_key_cases.
  - unfold BaseCloud_getKey. by constructor.
  - destruct (Hm Hp) as [body Hbody].
    unfold OpenStackCloud_getKey. rewrite Hbody. io_unfold. simpl.
    case_bool_decide; constructor; simpl; eauto; done.
  - unfold JoyentCloud_getKey. io_unfold. simpl.
    destruct (execOutput w "/usr/sbin/mdata-get" [k]);
      constructor; simpl; eauto; done.
Qed.

Lemma printed_cons (a : string) (t : list Event) :
  printed (EvPrint a :: t) = a :: printed t.
Proof. reflexivity. Qed.

Lemma printed_app (t1 t2 : list Event) :
  printed (t1 ++ t2) = printed t1 ++ printed t2.
Proof. apply omap_app. Qed.

Lemma stdout_two (a b : string) (t : list Event) :
  printed t = [] ->
  stdout_of (EvPrint a :: t ++ [EvPrint b]) = a +:+ b
  /\ stdout_of (EvPrint a :: t) = a.
Proof.
  intros Ht. unfold stdout_of.
  rewrite !printed_cons, printed_app, Ht. split; reflexivity.
Qed.

Lemma calls_two (a b : string) (t : list Event) :
  calls_of t = t ->
  calls_of (EvPrint a :: t ++ [EvPrint b]) = t.
Proof.
  intros Ht. unfold calls_of in *.
  change (omap ?f (EvPrint a :: ?l)) with (omap f l).
  rewrite omap_app, Ht. apply app_nil_r.
Qed.

Lemma reported_no_key (opts : CommandOptions) (cd : CloudDetector) (w : World) :
  key opts = "" ->
  reported opts cd w = Exited (line (cloudDescription cd)) 0 [].
Proof. intros Hk. unfold reported, report. rewrite Hk. done. Qed.

Lemma reported_key (opts : CommandOptions) (cd : CloudDetector) (w : World) :
  key opts ≠ "" ->
  metadata_cached cd ->
  isEffectiveCloud cd = true ->
  match getKey cd (key opts) w with
  | (Normal (val, Some _), calls) =>
      reported opts cd w
      = Exited (line (cloudDescription cd) +:+ line "UNKNOWN") 1 calls
  | (Normal (val, None), calls) =>
      exists v, val = Some v
        /\ reported opts cd w
           = Exited (line (cloudDescription cd) +:+ line v) 0 calls
  | (Panic msg, _) =>
      ~ accepted (key_url cd (key opts))
      /\ reported opts cd w = Crashed (line (cloudDescription cd)) msg
  end.
Proof.
  intros Hk Hm Hp.
  pose proof (getKey_cases cd (key opts) w Hm Hp) as Hcases.
  assert (forall (rest : IO Z),
    (Printf (line (cloudDescription cd)) ≫= fun _ => rest) w
    = ((rest w).1, EvPrint (line (cloudDescription cd)) :: (rest w).2)) as Hprint.
  { intros rest. by rewrite (io_bind_normal _ _ _ () [EvPrint _] eq_refl). }
  unfold reported, report.
  rewrite bool_decide_eq_false_2 by done. cbn [negb]. rewrite Hprint.
  destruct (getKey cd (key opts) w) as [o t] eqn:Hg.
  inversion Hcases as [val err t' _ Hv Hpr Hc | msg Hno]; subst.
  - rewrite (io_bind_normal _ _ _ _ _ Hg).
    destruct err as [e |]; cbn -[calls_of stdout_of line].
    + change ((Printf (line "UNKNOWN") ≫= fun _ => mret 1) w)
        with (Normal 1, [EvPrint (line "UNKNOWN")]).
      cbn [fst snd].
      destruct (stdout_two (line (cloudDescription cd)) (line "UNKNOWN") t Hpr)
        as [-> _].
      by rewrite calls_two.
    + destruct Hv as [v ->]; [done |]. exists v. split; [done |].
      change ((deref (Some v) ≫= fun v0 => Printf (line v0) ≫= fun _ => mret 0) w)
        with (Normal 0, [EvPrint (line v)]).
      cbn [fst snd].
      destruct (stdout_two (line (cloudDescription cd)) (line v) t Hpr) as [-> _].
      by rewrite calls_two.
  - split; [done |].
    by rewrite (io_bind_panic _ _ _ _ _ Hg).
Qed.

(** ** The whole run *)

(** From here on, [http.NewRequest] accepts the detection URL of every
    probe of the registry. *)
Hypothesis registry_urls :
  Forall (fun cd => accepted (detect_url cd)) setupClouds.

Lemma gce_url_accepted : NewRequest_ok gce_url = true.
Proof. exact (Forall_lookup_1 _ _ 1%nat _ registry_urls eq_refl). Qed.

Lemma detected_description (w : World) (cd : CloudDetector) :
  accepted (detect_url cd) ->
  cloudDescription (detected w cd) = cloudDescription cd.
Proof.
  intros Hok. unfold detected.
  by destruct (detect_run w cd Hok) as (cd' & t & -> & _ & ? & _).
Qed.

Lemma final_descriptions (w : World) :
  cloudDescription <$> (detected w <$> setupClouds)
  = ["AWS"; "GCE"; "Azure"; "OpenStack"; "Digital Ocean"; "Joyent"].
Proof.
  rewrite <- list_fmap_compose.
  transitivity (cloudDescription <$> setupClouds); [| done].
  apply list_fmap_ext. intros i cd Hi. apply detected_description.
  by eapply Forall_lookup_1 in registry_urls.
Qed.

Lemma final_cached (w : World) : Forall metadata_cached (detected w <$> setupClouds).
Proof.
  apply Forall_fmap. eapply Forall_impl; [exact registry_urls |].
  intros cd Hok. simpl. unfold detected.
  by destruct (detect_run w cd Hok) as (cd' & t & -> & _ & _ & _ & _ & ?).
Qed.

Lemma winner_final (w : World) (i : nat) (cd : CloudDetector) :
  winner (detected w <$> setupClouds) = Some (i, cd) ->
  (detected w <$> setupClouds) !! i = Some cd
  /\ isEffectiveCloud cd = true /\ metadata_cached cd.
Proof.
  intros (Hi & Hp & _)%list_find_Some. repeat split; try done.
  eapply Forall_lookup_1; [apply final_cached | done].
Qed.

(** A run is the flag parsing, then the report of the winner among the
    detected entries, whatever the schedule. *)
Lemma main_run (args : list string) (sched : list nat) (wd wk : World) :
  schedule (length setupClouds) sched ->
  main args sched wd wk
  = match setupOptions setupClouds args with
    | None => FlagExit
    | Some opts =>
        match winner (detected wd <$> setupClouds) with
        | Some (_, cd) => reported opts cd wk
        | None => Exited (line "UNKNOWN") 1 []
        end
    end.
Proof.
  intros Hs. unfold main.
  destruct (setupOptions setupClouds args) as [opts |]; [| done].
  pose proof (join_schedule wd sched setupClouds registry_urls Hs) as Hj.
  destruct (runTasks sched setupClouds wd) as [o t]. cbn [fst] in Hj. subst o.
  rewrite resolve_winner.
  by destruct (winner (detected wd <$> setupClouds)) as [[i cd] |].
Qed.

(** ** Winner selection *)

(** C1. After every detection task has completed, the scan goes through the
    registry in its order (AWS, GCE, Azure, OpenStack, Digital Ocean,
    Joyent) and stops at the first entry that reports presence. Whatever
    the order in which the tasks finish, the join leaves the same registry,
    the position of the winner is a function of the presence flags alone,
    and the run of [main] is the same. *)
Theorem winner_is_first_present_in_registry_order
  (args : list string) (sched : list nat) (wd wk : World) :
  schedule (length setupClouds) sched ->
  let final := detected wd <$> setupClouds in
  (runTasks sched setupClouds wd).1 = Normal final
  /\ cloudDescription <$> final
     = ["AWS"; "GCE"; "Azure"; "OpenStack"; "Digital Ocean"; "Joyent"]
  /\ (forall opts,
        resolve opts final wk
        = match winner final with
          | Some (_, cd) => report opts cd wk
          | None => (Normal 1, [EvPrint (line "UNKNOWN")])
          end)
  /\ (forall i cd,
        winner final = Some (i, cd) <->
        final !! i = Some cd /\ isEffectiveCloud cd = true
        /\ forall j cd', final !! j = Some cd' -> (j < i)%nat ->
                         isEffectiveCloud cd' = false)
  /\ (forall l1 l2 : list CloudDetector,
        isEffectiveCloud <$> l1 = isEffectiveCloud <$> l2 ->
        fst <$> winner l1 = fst <$> winner l2)
  /\ (forall sched',
        schedule (length setupClouds) sched' ->
        (runTasks sched' setupClouds wd).1 = (runTasks sched setupClouds wd).1
        /\ main args sched' wd wk = main args sched wd wk).
Proof.
  intros Hs final. split_and!.
  - by apply join_schedule.
  - apply final_descriptions.
  - intros opts. rewrite resolve_winner. by destruct (winner final) as [[i cd] |].
  - intros i cd. unfold winner. rewrite list_find_Some.
    split; intros (Hi & Hp & Hlt); (split_and!; [done | done |]);
      intros j cd' Hj Hji; specialize (Hlt j cd' Hj Hji).
    + by destruct (isEffectiveCloud cd').
    + by rewrite Hlt.
  - apply winner_presence.
  - intros sched' Hs'. split.
    + by rewrite !join_schedule.
    + by rewrite !main_run.
Qed.

(** ** Exit status without a key *)

(** C2. When no entry reports presence after the join, the program writes
    the single line [UNKNOWN] to standard output and exits with status 1;
    when an entry reports presence and no key is requested, it writes the
    display name of the first such entry and exits with status 0. *)
Theorem unknown_or_provider_name
  (args : list string) (sched : list nat) (wd wk : World) (opts : CommandOptions) :
  schedule (length setupClouds) sched ->
  setupOptions setupClouds args = Some opts ->
  let final := detected wd <$> setupClouds in
  (Forall (fun cd => isEffectiveCloud cd = false) final ->
   main args sched wd wk = Exited (line "UNKNOWN") 1 [])
  /\ (key opts = "" ->
      Exists (fun cd => isEffectiveCloud cd = true) final ->
      exists i cd,
        winner final = Some (i, cd)
        /\ main args sched wd wk = Exited (line (cloudDescription cd)) 0 []).
Proof.
  intros Hs Ho final. rewrite (main_run _ _ _ _ Hs), Ho. fold final. split.
  - intros Hnone.
    assert (winner final = None) as ->; [| done].
    apply list_find_None. eapply Forall_impl; [exact Hnone |].
    simpl. intros cd ->. done.
  - intros Hk (cd & Hin & Hp)%Exists_exists.
    destruct (list_find_elem_of (fun cd => isEffectiveCloud cd = true) final cd Hin Hp)
      as [[i cd'] Hw].
    exists i, cd'. split; [exact Hw |].
    unfold winner. rewrite Hw. by apply reported_no_key.
Qed.

(** ** Exit status with a key *)

(** A key that does not make a URL: the request is [nil] and the key
    fetch panics before any GET. *)
Lemma getKey_rejected (cd : CloudDetector) (k u : string) (w : World) :
  key_url cd k = Some u ->
  NewRequest_ok u = false ->
  getKey cd k w = (Panic nil_dereference, []).
Proof.
  intros Hu Hno.
  destruct cd as [c | c | c | c | c | c]; simpl in Hu; try discriminate;
    injection Hu as <-; simpl.
  - unfold SimpleUrlBasedCloud_getKey.
    by rewrite (io_bind_panic _ _ _ _ _ (getUrl_rejected _ ∅ w Hno)).
  - unfold GCECloud_getKey.
    by rewrite (io_bind_panic _ _ _ _ _ (getUrl_rejected _ _ w Hno)).
  - unfold SimpleUrlBasedCloud_getKey.
    by rewrite (io_bind_panic _ _ _ _ _ (getUrl_rejected _ ∅ w Hno)).
Qed.

(** C3 (code bug). With a key that is not empty and a detected provider,
    the provider name is the first line of standard output. When [getKey]
    of the winning entry returns no error, the fetched value is the second
    line and the exit status is 0; when it returns an error, the second
    line is [UNKNOWN] and the exit status is 1. But a key fetch can fail
    without returning: [getUrl] drops the error of [http.NewRequest], so
    for a key that does not make a URL after the base URL of AWS, Digital
    Ocean or GCE (the key [%zz] is one) the request is [nil], [getKey]
    panics before any GET, and the process ends on the panic after the
    first line: this failure of the key fetch gives neither the line
    [UNKNOWN] nor the exit status 1. A panic of [getKey] of the winner has
    no other cause. *)
Theorem key_fetch_failure_outcomes
  (args : list string) (sched : list nat) (wd wk : World) (opts : CommandOptions)
  (i : nat) (cd : CloudDetector) :
  schedule (length setupClouds) sched ->
  setupOptions setupClouds args = Some opts ->
  key opts ≠ "" ->
  winner (detected wd <$> setupClouds) = Some (i, cd) ->
  match getKey cd (key opts) wk with
  | (Normal (val, Some _), calls) =>
      main args sched wd wk
      = Exited (line (cloudDescription cd) +:+ line "UNKNOWN") 1 calls
  | (Normal (val, None), calls) =>
      exists v, val = Some v
        /\ main args sched wd wk
           = Exited (line (cloudDescription cd) +:+ line v) 0 calls
  | (Panic msg, _) =>
      ~ accepted (key_url cd (key opts))
      /\ main args sched wd wk = Crashed (line (cloudDescription cd)) msg
  end
  /\ (forall u,
        key_url cd (key opts) = Some u ->
        NewRequest_ok u = false ->
        getKey cd (key opts) wk = (Panic nil_dereference, [])
        /\ main args sched wd wk
           = Crashed (line (cloudDescription cd)) nil_dereference
        /\ forall rc calls,
             main args sched wd wk
             ≠ Exited (line (cloudDescription cd) +:+ line "UNKNOWN") rc calls).
Proof.
  intros Hs Ho Hk Hw.
  destruct (winner_final wd i cd Hw) as (_ & Hp & Hm).
  rewrite (main_run _ _ _ _ Hs), Ho, Hw.
  pose proof (reported_key opts cd wk Hk Hm Hp) as Hrep.
  split; [exact Hrep |].
  intros u Hu Hno.
  pose proof (getKey_rejected cd (key opts) u wk Hu Hno) as Hg.
  split; [exact Hg |].
  rewrite Hg in Hrep. destruct Hrep as [_ ->]. by split.
Qed.

(** ** The empty key *)

(** C10. When the requested key is the empty string, which is the default
    of the flag and what [--key] followed by an empty argument sets, no
    key is fetched whatever was detected: the run makes no transport call
    after the join and is the run of an invocation without arguments,
    printing the provider name with status 0, or [UNKNOWN] with status 1. *)
Theorem empty_key_fetches_nothing
  (args : list string) (sched : list nat) (wd wk : World) (opts : CommandOptions) :
  schedule (length setupClouds) sched ->
  setupOptions setupClouds args = Some opts ->
  key opts = "" ->
  main args sched wd wk = main [] sched wd wk
  /\ main args sched wd wk
     = match winner (detected wd <$> setupClouds) with
       | Some (_, cd) => Exited (line (cloudDescription cd)) 0 []
       | None => Exited (line "UNKNOWN") 1 []
       end
  /\ key <$> setupOptions setupClouds [] = Some ""
  /\ key <$> setupOptions setupClouds ["--key"; ""] = Some ""
  /\ key <$> setupOptions setupClouds ["-key="] = Some "".
Proof.
  intros Hs Ho Hk.
  assert (forall a o, setupOptions setupClouds a = Some o -> key o = "" ->
          main a sched wd wk
          = match winner (detected wd <$> setupClouds) with
            | Some (_, cd) => Exited (line (cloudDescription cd)) 0 []
            | None => Exited (line "UNKNOWN") 1 []
            end) as Hrun.
  { intros a o Ha Hko. rewrite (main_run _ _ _ _ Hs), Ha.
    destruct (winner _) as [[i cd] |]; [| done].
    by apply reported_no_key. }
  split_and!; try done.
  - rewrite (Hrun args opts Ho Hk). symmetry. by eapply Hrun.
  - by apply (Hrun args opts).
Qed.

(** ** The GCE probe *)

(** C4. The GCE probe reports presence only when the GET of the metadata
    URL succeeds with status 200 and the response carries the header
    [Metadata-Flavor] with the value [Google]; a response with status 200
    whose header has another value, or that lacks the header, leaves the
    probe absent. *)
Theorem gce_presence_needs_header (c : BaseCloud) (w : World) :
  exists c',
    GCECloud_detectEffectiveCloud c w = (Normal c', [EvHttpGet gce_url gce_headers])
    /\ (isMyCloud c' = true ->
        exists r, httpDo w gce_url gce_headers = DoOk r
                  /\ StatusCode r = 200
                  /\ Header_Get (Header r) "Metadata-Flavor" = "Google")
    /\ (forall r, httpDo w gce_url gce_headers = DoOk r ->
                  StatusCode r = 200 ->
                  Header_Get (Header r) "Metadata-Flavor" ≠ "Google" ->
                  isMyCloud c' = false)
    /\ (forall r, httpDo w gce_url gce_headers = DoOk r ->
                  StatusCode r = 200 ->
                  Header r !! "Metadata-Flavor" = None ->
                  isMyCloud c' = false).
Proof.
  destruct (GCECloud_detect_run w c gce_url_accepted)
    as (c' & Hrun & _ & _ & Hfail & Hok).
  exists c'. split; [done |].
  assert (forall r, httpDo w gce_url gce_headers = DoOk r ->
                    Header_Get (Header r) "Metadata-Flavor" ≠ "Google" ->
                    isMyCloud c' = false) as Hneq.
  { intros r Hr Hh. destruct (http_failure w gce_url gce_headers) eqn:Hf; [auto |].
    rewrite (Hok r Hr eq_refl). by apply bool_decide_eq_false. }
  split_and!.
  - intros Hp. destruct (http_failure w gce_url gce_headers) eqn:Hf.
    { rewrite Hfail in Hp; done. }
    unfold http_failure in Hf.
    destruct (httpDo w gce_url gce_headers) as [r | r e] eqn:Hdo; [| done].
    exists r. apply orb_false_elim in Hf as [Hs _].
    apply negb_false_iff, Z.eqb_eq in Hs. split_and!; [done | done |].
    rewrite (Hok r eq_refl eq_refl) in Hp. by apply bool_decide_eq_true in Hp.
  - intros r Hr _ Hh. by apply (Hneq r).
  - intros r Hr _ Hh. apply (Hneq r Hr). unfold Header_Get. by rewrite Hh.
Qed.

(** ** Reading JSON text *)

Lemma bytes_of_string_app (a b : string) :
  bytes_of_string (a +:+ b) = bytes_of_string a ++ bytes_of_string b.
Proof.
  induction a as [| x a IH]; [done |].
  change (Z.of_N (N_of_ascii x) :: bytes_of_string (a +:+ b)
          = Z.of_N (N_of_ascii x) :: (bytes_of_string a ++ bytes_of_string b)).
  by f_equal.
Qed.

Lemma string_of_bytes_of_string (s : string) :
  string_of_bytes (bytes_of_string s) = s.
Proof.
  induction s as [| x s IH]; [done |]. simpl.
  by rewrite N2Z.id, ascii_N_embedding, IH.
Qed.

Lemma bytes_of_quoted (s : string) :
  bytes_of_string (quoted s) = 34 :: bytes_of_string s ++ [34].
Proof. unfold quoted. by rewrite !bytes_of_string_app. Qed.

(** A literal of plain bytes is read back as it is. *)
Lemma parse_string_plain (bs rest : list Z) (fuel : nat) :
  Forall (fun b => plain_byte b = true) bs ->
  (length bs < fuel)%nat ->
  parse_string fuel (bs ++ 34 :: rest) = Some (bs, rest).
Proof.
  revert fuel. induction bs as [| b bs IH]; intros fuel Hp Hlen.
  - destruct fuel as [| fuel]; [simpl in Hlen; lia |]. reflexivity.
  - destruct fuel as [| fuel]; [simpl in Hlen; lia |].
    apply Forall_cons in Hp as [Hb Hp]. simpl in Hlen.
    unfold plain_byte in Hb.
    apply andb_prop in Hb as [Hb H92]. apply andb_prop in Hb as [Hb H34].
    apply andb_prop in Hb as [H32 H127].
    apply negb_true_iff in H92, H34.
    apply Z.leb_le in H32. apply Z.ltb_lt in H127.
    assert ((b <? 32) = false) as Hlo by (apply Z.ltb_ge; lia).
    assert ((b <? 128) = true) as Hhi by (apply Z.ltb_lt; lia).
    cbn [parse_string app].
    rewrite H34, H92, Hlo, Hhi. rewrite IH by (done || lia). reflexivity.
Qed.

Ltac norm_app :=
  repeat (rewrite <- app_assoc || rewrite <- app_comm_cons || rewrite app_nil_l).

Lemma foldl_insert_lookup (fs : list (string * string)) (m : gmap string string)
  (k : string) :
  foldl (fun m kv => <[kv.1 := map_elem kv.2]> m) m
    ((fun kv => (kv.1, JString kv.2)) <$> fs) !! k
  = match last_field fs k with
    | Some v => Some v
    | None => m !! k
    end.
Proof.
  unfold last_field. revert m. induction fs as [| [k' v] fs IH]; intros m; [done |].
  simpl. rewrite IH. rewrite reverse_cons, filter_app, filter_cons, filter_nil.
  destruct (filter (fun kv => kv.1 = k) (reverse fs)) as [| [k0 v0] l]; simpl.
  - destruct (decide (k' = k)) as [-> | Hne]; simpl.
    + by rewrite lookup_insert_eq.
    + by rewrite lookup_insert_ne.
  - done.
Qed.











(** ** The OpenStack key fetch *)



(** ** What detection writes besides presence *)

Lemma detected_supportsKeys (w : World) (cd : CloudDetector) :
  accepted (detect_url cd) ->
  supportsKeys (detected w cd)
  = match cd with
    | AWSCloud _ | OpenStackCloud _ | DigitalOceanCloud _ => supportsKeys cd
    | GCECloud _ | AzureCloud _ | JoyentCloud _ => true
    end.
Proof.
  unfold detected. destruct cd as [c | c | c | c | c | c]; simpl; intros Hok.
  1, 4, 5:
    destruct (SimpleUrlBasedCloud_detect_run w c Hok) as (c' & Hrun & _ & Hk & _);
    by rewrite (io_fmap_normal _ _ _ _ _ Hrun).
  - destruct (GCECloud_detect_run w c Hok) as (c' & Hrun & _ & Hk & _).
    by rewrite (io_fmap_normal _ _ _ _ _ Hrun).
  - destruct (AzureCloud_detect_run w c) as (c' & Hrun & _ & Hk & _).
    by rewrite (io_fmap_normal _ _ _ _ _ Hrun).
  - destruct (JoyentCloud_detect_run w c) as (c' & Hrun & _ & Hk & _).
    by rewrite (io_fmap_normal _ _ _ _ _ Hrun).
Qed.

(** Every entry of the registry but Azure's is built with [supportsKey]
    set, and keeps it through detection; every entry keeps its name. *)
Lemma registry_supportsKeys_kept (w : World) (cd : CloudDetector) :
  cd ∈ setupClouds ->
  cloudDescription (detected w cd) = cloudDescription cd
  /\ (cloudDescription cd ≠ "Azure" ->
      supportsKeys cd = true
      /\ supportsKeys (detected w cd) = supportsKeys cd).
Proof.
  intros Hin.
  assert (accepted (detect_url cd)) as Hok.
  { by eapply Forall_forall in registry_urls. }
  rewrite detected_supportsKeys, detected_description by done.
  split; [done |]. intros Hna.
  unfold setupClouds in Hin. simpl in Hin.
  repeat (apply elem_of_cons in Hin as [-> | Hin]; [by split_and! |]).
  by apply elem_of_nil in Hin.
Qed.

(** C6. The attribute [supportsKey] is meant to be fixed when a probe is
    built. The Azure entry of the registry is built with it unset; its
    detection sets it, so [supportsKeys] answers [false] before the
    detection and [true] after it, on every host. The name is unchanged. *)
Theorem azure_detection_sets_supportsKey (w : World) :
  let azure := AzureCloud (set_name "Azure" BaseCloud_zero) in
  setupClouds !! 2%nat = Some azure
  /\ supportsKeys <$> setupClouds = [true; true; false; true; true; true]
  /\ supportsKeys azure = false
  /\ supportsKeys (detected w azure) = true
  /\ cloudDescription (detected w azure) = cloudDescription azure.
Proof.
  intros azure. split_and!; try done.
  - by apply detected_supportsKeys.
  - by apply detected_description.
Qed.

(** ** Failures of the transport *)

(** C7. [detectEffectiveCloud] of every probe of the registry returns
    normally on every host, and when its transport call fails (no
    response, a status other than 200, an unreadable body, a missing file)
    it leaves the probe absent; the join of the tasks therefore never
    aborts. [getUrl] reports every failed GET, a status other than 200
    among them, as an error with no body. *)
Theorem transport_failure_is_absence (w : World) (cd : CloudDetector) :
  cd ∈ setupClouds ->
  (exists cd' t,
      detectEffectiveCloud cd w = (Normal cd', t)
      /\ (transport_failure w cd = true -> isEffectiveCloud cd' = false))
  /\ (forall sched : list nat,
        exists l', (runTasks sched setupClouds w).1 = Normal l')
  /\ (forall url headers,
        NewRequest_ok url = true ->
        http_failure w url headers = true ->
        exists resp err,
          getUrl url headers w
          = (Normal (None, resp, Some err), [EvHttpGet url headers]))
  /\ (forall url headers r,
        NewRequest_ok url = true ->
        httpDo w url headers = DoOk r ->
        StatusCode r ≠ 200 ->
        getUrl url headers w
        = (Normal (None, Some r,
                   Some ("An error getting the url " +:+ url +:+ " : " +:+ Status r)),
           [EvHttpGet url headers])).
Proof.
  intros Hin.
  assert (accepted (detect_url cd)) as Hok.
  { by eapply Forall_forall in registry_urls. }
  split_and!.
  - destruct (detect_run w cd Hok) as (cd' & t & Hrun & _ & _ & _ & Hf & _). eauto.
  - intros sched. rewrite runTasks_run by exact registry_urls. eauto.
  - intros url headers Hurl Hf.
    destruct (getUrl_run url headers w Hurl) as (body & resp & err & Hrun & Hfail & _).
    destruct (Hfail Hf) as [-> [e ->]]. eauto.
  - intros url headers r Hurl Hr Hs.
    destruct (getUrl_run url headers w Hurl) as (body & resp & err & Hrun & Hfail & _).
    assert (http_failure w url headers = true) as Hf.
    { unfold http_failure. rewrite Hr. apply Z.eqb_neq in Hs. by rewrite Hs. }
    rewrite Hrun. destruct (Hfail Hf) as [-> _].
    revert Hrun. unfold getUrl, http_NewRequest, add_headers. rewrite Hurl.
    apply Z.eqb_neq in Hs.
    destruct (decide (headers = ∅)) as [-> |]; io_unfold; simpl;
      rewrite Hr; simpl; rewrite Hs; simpl; by intros [= <- <-].
Qed.

(** ** Probes without key fetch *)

(** C8. [getKey] of the base probe fails with the error [Cloud does not
    support keys] for every key and makes no transport call. The Azure
    probe has no [getKey] of its own, so each of its key fetches fails
    this way; and Azure can be the detected provider, in which case a run
    with a key prints [Azure], then [UNKNOWN], and exits with status 1. *)
Theorem base_getKey_unsupported :
  (forall (c : BaseCloud) (k : string) (w : World),
      BaseCloud_getKey c k w = (Normal (None, Some "Cloud does not support keys"), []))
  /\ (forall (c : BaseCloud) (k : string) (w : World),
        getKey (AzureCloud c) k w
        = (Normal (None, Some "Cloud does not support keys"), []))
  /\ (forall (args : list string) (sched : list nat) (wd wk : World)
             (opts : CommandOptions) (i : nat) (c : BaseCloud),
        schedule (length setupClouds) sched ->
        setupOptions setupClouds args = Some opts ->
        key opts ≠ "" ->
        winner (detected wd <$> setupClouds) = Some (i, AzureCloud c) ->
        main args sched wd wk = Exited (line "Azure" +:+ line "UNKNOWN") 1 [])
  /\ (exists c : BaseCloud,
        winner (detected azure_host <$> setupClouds) = Some (2%nat, AzureCloud c)).
Proof.
  split_and!; [done | done | |].
  - intros args sched wd wk opts i c Hs Ho Hk Hw.
    destruct (winner_final wd i _ Hw) as (Hi & Hp & Hm).
    assert (cloudDescription (AzureCloud c) = "Azure") as Hname.
    { apply list_lookup_fmap_Some in Hi as (cd0 & Heq & Hcd0).
      assert (accepted (detect_url cd0)) as Hok0
        by (by eapply Forall_lookup_1 in registry_urls).
      assert (same_kind cd0 (AzureCloud c)) as Hkind.
      { rewrite Heq. unfold detected.
        by destruct (detect_run wd cd0 Hok0) as (cd' & t & -> & ? & _). }
      rewrite Heq, detected_description by done.
      destruct i as [| [| [| [| [| [| i]]]]]]; simpl in Hcd0;
        try discriminate; injection Hcd0 as <-; done. }
    rewrite (main_run _ _ _ _ Hs), Ho, Hw.
    pose proof (reported_key opts _ wk Hk Hm Hp) as Hrep.
    simpl in Hrep. by rewrite Hname in Hrep.
  - destruct (AzureCloud_detect_run azure_host (set_name "Azure" BaseCloud_zero))
      as (c' & Hrun & Hn & Hk & Hp).
    exists c'. apply list_find_Some. split_and!.
    + change ((detected azure_host <$> setupClouds) !! 2%nat)
        with (Some (detected azure_host (AzureCloud (set_name "Azure" BaseCloud_zero)))).
      f_equal. unfold detected. cbn [detectEffectiveCloud].
      by rewrite (io_fmap_normal _ _ _ _ _ Hrun).
    + unfold isEffectiveCloud, BaseCloud_isEffectiveCloud. cbn [base_of].
      rewrite Hp. reflexivity.
    + intros j cd Hj Hlt.
      apply list_lookup_fmap_Some in Hj as (cd0 & -> & Hcd0).
      assert (accepted (detect_url cd0)) as Hok0
        by (by eapply Forall_lookup_1 in registry_urls).
      destruct (detect_run azure_host cd0 Hok0) as (cd' & t & Hrun' & _ & _ & _ & Hf & _).
      unfold detected. rewrite Hrun'. simpl.
      rewrite Hf; [done |].
      destruct j as [| [| j]]; [| | lia]; simpl in Hcd0; injection Hcd0 as <-; done.
Qed.

(** ** The cached body *)

(** C9. After the detection of a URL-based probe (AWS, OpenStack, Digital
    Ocean) the probe reports presence exactly when it holds a body: a
    present probe never has a [nil] [metadata]. Hence, when the winner is
    the OpenStack probe, its [getKey] dereferences a body and returns; and
    when the process panics after the join, it is on a key URL that
    [http.NewRequest] rejected, never on the cached body. *)
Theorem present_url_probe_has_metadata :
  (forall (w : World) (c c' : SimpleUrlBasedCloud) (t : list Event),
      SimpleUrlBasedCloud_detectEffectiveCloud c w = (Normal c', t) ->
      (isMyCloud (Base c') = true <-> is_Some (metadata c')))
  /\ (forall (w : World) (cd : CloudDetector),
        cd ∈ setupClouds -> metadata_cached (detected w cd))
  /\ (forall (args : list string) (sched : list nat) (wd wk : World),
        schedule (length setupClouds) sched ->
        (forall (i : nat) (c : SimpleUrlBasedCloud) (k : string),
            winner (detected wd <$> setupClouds) = Some (i, OpenStackCloud c) ->
            is_Some (metadata c)
            /\ exists r, OpenStackCloud_getKey c k wk = (Normal r, []))
        /\ (forall out msg,
              main args sched wd wk = Crashed out msg ->
              exists opts i cd,
                setupOptions setupClouds args = Some opts
                /\ winner (detected wd <$> setupClouds) = Some (i, cd)
                /\ ~ accepted (key_url cd (key opts)))).
Proof.
  split_and!.
  - intros w c c' t Hrun.
    destruct (NewRequest_ok (testUrl c)) eqn:Hok.
    + destruct (SimpleUrlBasedCloud_detect_run w c Hok)
        as (c'' & Hrun' & _ & _ & _ & _ & _ & Hsome & Hnone).
      rewrite Hrun in Hrun'. injection Hrun' as <- _.
      split; [done |]. intros [body Hb].
      destruct (isMyCloud (Base c')); [done |].
      rewrite Hnone in Hb; done.
    + unfold SimpleUrlBasedCloud_detectEffectiveCloud in Hrun.
      by rewrite (io_bind_panic _ _ _ _ _ (getUrl_rejected _ ∅ w Hok)) in Hrun.
  - intros w cd Hin.
    apply (list_elem_of_fmap_2 (detected w)) in Hin.
    by eapply Forall_forall in Hin; [| apply (final_cached w)].
  - intros args sched wd wk Hs. split.
    + intros i c k Hw.
      destruct (winner_final wd i _ Hw) as (_ & Hp & Hm).
      destruct (Hm Hp) as [body Hb]. split; [by exists body |].
      unfold OpenStackCloud_getKey. rewrite Hb. io_unfold. simpl.
      case_bool_decide; eauto.
    + intros out msg. rewrite (main_run _ _ _ _ Hs).
      destruct (setupOptions setupClouds args) as [opts |]; [| done].
      destruct (winner _) as [[i cd] |] eqn:Hw; [| done].
      destruct (winner_final wd i cd Hw) as (_ & Hp & Hm).
      intros Hcrash. exists opts, i, cd. split_and!; try done.
      destruct (decide (key opts = "")) as [Hk | Hk].
      * by rewrite reported_no_key in Hcrash.
      * pose proof (reported_key opts cd wk Hk Hm Hp) as Hrep.
        destruct (getKey cd (key opts) wk) as [[[val [e |]] | m] t'].
        -- by rewrite Hrep in Hcrash.
        -- destruct Hrep as (v & _ & Hrep). by rewrite Hrep in Hcrash.
        -- by destruct Hrep.
Qed.

(** ** A key that does not make a URL *)

(** X1. [getUrl] drops the error of [http.NewRequest]. When the winner fetches
    its key by a GET and [http.NewRequest] rejects the URL built from the
    key, the request is [nil]: the process has printed the provider name
    and panics, with no second line and no GET. *)
Theorem rejected_key_url_panics
  (args : list string) (sched : list nat) (wd wk : World) (opts : CommandOptions)
  (i : nat) (cd : CloudDetector) (u : string) :
  schedule (length setupClouds) sched ->
  setupOptions setupClouds args = Some opts ->
  key opts ≠ "" ->
  winner (detected wd <$> setupClouds) = Some (i, cd) ->
  key_url cd (key opts) = Some u ->
  NewRequest_ok u = false ->
  getKey cd (key opts) wk = (Panic nil_dereference, [])
  /\ main args sched wd wk = Crashed (line (cloudDescription cd)) nil_dereference.
Proof.
  intros Hs Ho Hk Hw Hu Hno.
  assert (getKey cd (key opts) wk = (Panic nil_dereference, [])) as Hg.
  { destruct cd as [c | c | c | c | c | c]; simpl in Hu; try discriminate;
      injection Hu as <-; simpl.
    - unfold SimpleUrlBasedCloud_getKey.
      by rewrite (io_bind_panic _ _ _ _ _ (getUrl_rejected _ ∅ wk Hno)).
    - unfold GCECloud_getKey.
      by rewrite (io_bind_panic _ _ _ _ _ (getUrl_rejected _ _ wk Hno)).
    - unfold SimpleUrlBasedCloud_getKey.
      by rewrite (io_bind_panic _ _ _ _ _ (getUrl_rejected _ ∅ wk Hno)). }
  split; [exact Hg |].
  destruct (winner_final wd i cd Hw) as (_ & Hp & Hm).
  rewrite (main_run _ _ _ _ Hs), Ho, Hw.
  pose proof (reported_key opts cd wk Hk Hm Hp) as Hrep.
  rewrite Hg in Hrep. by destruct Hrep.
Qed.

(** * Further properties of the program *)

(** ** What a GET brings back *)

Lemma http_body_failure (w : World) (url : string) (headers : gmap string string) :
  http_failure w url headers = negb (bool_decide (is_Some (http_body w url headers))).
Proof.
  unfold http_failure, http_body.
  destruct (httpDo w url headers) as [r | r e]; simpl; [| done].
  destruct (StatusCode r =? 200); simpl; [| done].
  destruct (Body r) as [b | e]; [| done].
  symmetry. apply negb_false_iff, bool_decide_eq_true. by exists b.
Qed.

(** What [getUrl] returns on a URL that [http.NewRequest] accepts. *)
Lemma getUrl_accepted (url : string) (headers : gmap string string) (w : World) :
  NewRequest_ok url = true ->
  exists resp err,
    getUrl url headers w
    = (Normal (http_body w url headers, resp, err), [EvHttpGet url headers])
    /\ (err = None <-> is_Some (http_body w url headers))
    /\ (forall r, httpDo w url headers = DoOk r -> resp = Some r)
    /\ (forall r e, httpDo w url headers = DoErr r e -> resp = r /\ err = Some e)
    /\ (forall r, httpDo w url headers = DoOk r -> StatusCode r ≠ 200 ->
          err = Some ("An error getting the url " +:+ url +:+ " : " +:+ Status r))
    /\ (forall r e, httpDo w url headers = DoOk r -> StatusCode r = 200 ->
          Body r = Err e -> err = Some e).
Proof.
  intros Hok.
  assert (exists req,
    add_headers (Some {| URL := url; ReqHeader := ∅ |}) headers w = (Normal (Some req), [])
    /\ URL req = url /\ ReqHeader req = headers) as (req & Hreq & Hu & Hh).
  { unfold add_headers. destruct (decide (headers = ∅)) as [-> |]; eauto. }
  unfold getUrl, http_NewRequest, http_body. rewrite Hok.
  rewrite (io_bind_normal _ _ _ _ _ Hreq). io_unfold. simpl. rewrite Hu, Hh.
  destruct (httpDo w url headers) as [r | r e]; simpl.
  - destruct (StatusCode r =? 200) eqn:Hs; simpl.
    + apply Z.eqb_eq in Hs.
      destruct (Body r) as [b | e] eqn:Hb; simpl; do 2 eexists;
        (split; [reflexivity |]); unfold is_Some;
        repeat split; intros; destruct_and?; simplify_eq; try done;
        try congruence; eauto; by destruct select (exists _, _).
    + apply Z.eqb_neq in Hs.
      do 2 eexists; (split; [reflexivity |]); unfold is_Some;
        repeat split; intros; simplify_eq; try done;
        try congruence; by destruct select (exists _, _).
  - do 2 eexists; (split; [reflexivity |]); unfold is_Some;
      repeat split; intros; simplify_eq; try done;
      try congruence; by destruct select (exists _, _).
Qed.

(** X2. On a URL that [http.NewRequest] accepts, [getUrl] makes exactly
    one GET, with exactly the headers it was given. It returns the body of
    the response as it is when the status is 200 and the body can be read,
    and [nil] otherwise; its error is [nil] exactly when it returns a
    body; and it hands back the response whenever there is one: the
    response of a GET without error, and whatever response [client.Do]
    returns beside its error, which [getUrl] passes on as it is. The error
    for a status other than 200 is the text [An error getting the url],
    the URL and the status line; the error of an unreadable body is passed
    on. *)
Theorem getUrl_body_or_error
  (url : string) (headers : gmap string string) (w : World) :
  NewRequest_ok url = true ->
  exists resp err,
    getUrl url headers w
    = (Normal (http_body w url headers, resp, err), [EvHttpGet url headers])
    /\ (err = None <-> is_Some (http_body w url headers))
    /\ (forall r, httpDo w url headers = DoOk r -> resp = Some r)
    /\ (forall r e, httpDo w url headers = DoErr r e -> resp = r /\ err = Some e)
    /\ (forall r, httpDo w url headers = DoOk r -> StatusCode r ≠ 200 ->
          err = Some ("An error getting the url " +:+ url +:+ " : " +:+ Status r))
    /\ (forall r e, httpDo w url headers = DoOk r -> StatusCode r = 200 ->
          Body r = Err e -> err = Some e).
Proof. exact (getUrl_accepted url headers w). Qed.

(** ** What detection leaves in a probe *)

(** The detection of a URL-based probe in closed form. *)
Lemma SimpleUrlBasedCloud_detect_closed (c : SimpleUrlBasedCloud) (w : World) :
  NewRequest_ok (testUrl c) = true ->
  SimpleUrlBasedCloud_detectEffectiveCloud c w
  = (Normal {| Base := {| name := name (Base c);
                          isMyCloud := bool_decide (is_Some (http_body w (testUrl c) ∅));
                          supportsKey := supportsKey (Base c) |};
               baseUrl := baseUrl c;
               testUrl := testUrl c;
               metadata := http_body w (testUrl c) ∅ |},
     [EvHttpGet (testUrl c) ∅]).
Proof.
  intros Hok.
  destruct (getUrl_accepted (testUrl c) ∅ w Hok) as (resp & err & Hrun & Herr & _).
  unfold SimpleUrlBasedCloud_detectEffectiveCloud.
  rewrite (io_bind_normal _ _ _ _ _ Hrun). simpl.
  do 3 f_equal. unfold set_isMyCloud. f_equal.
  apply bool_decide_ext. by rewrite Herr.
Qed.

(** X3. The detection of a URL-based probe makes one GET of [testUrl]
    without headers and overwrites two fields, whatever they held before:
    [metadata] becomes the body that the GET brought back ([nil] when it
    brought none) and [isMyCloud] tells whether there is one. The name,
    [supportsKey] and the two URLs are kept; the headers and the content
    of the response are not looked at. *)
Theorem url_probe_detection (c : SimpleUrlBasedCloud) (w : World) :
  NewRequest_ok (testUrl c) = true ->
  SimpleUrlBasedCloud_detectEffectiveCloud c w
  = (Normal {| Base := {| name := name (Base c);
                          isMyCloud := bool_decide (is_Some (http_body w (testUrl c) ∅));
                          supportsKey := supportsKey (Base c) |};
               baseUrl := baseUrl c;
               testUrl := testUrl c;
               metadata := http_body w (testUrl c) ∅ |},
     [EvHttpGet (testUrl c) ∅]).
Proof. exact (SimpleUrlBasedCloud_detect_closed c w). Qed.

(** One transport call per probe, and the presence that it leaves. *)
Lemma detect_answers (w : World) (cd : CloudDetector) :
  accepted (detect_url cd) ->
  detectEffectiveCloud cd w = (Normal (detected w cd), [detect_event cd])
  /\ isEffectiveCloud (detected w cd) = probe_answers w cd.
Proof.
  intros Hok. unfold detected.
  destruct cd as [c | c | c | c | c | c]; simpl in *.
  1, 4, 5:
    rewrite (io_fmap_normal _ _ _ _ _ (SimpleUrlBasedCloud_detect_closed c w Hok)); done.
  - destruct (GCECloud_detect_run w c Hok) as (c' & Hrun & _ & _ & Hfail & Hsucc).
    rewrite (io_fmap_normal _ _ _ _ _ Hrun). split; [done |].
    unfold isEffectiveCloud, BaseCloud_isEffectiveCloud. simpl.
    pose proof (http_body_failure w gce_url gce_headers) as Hb.
    destruct (bool_decide (is_Some (http_body w gce_url gce_headers))) eqn:Hbody;
      simpl in Hb.
    + simpl. unfold http_failure in Hb.
      destruct (httpDo w gce_url gce_headers) as [r | r e] eqn:Hdo; [| done].
      apply (Hsucc r eq_refl). unfold http_failure. by rewrite Hdo.
    + simpl. auto.
  - destruct (AzureCloud_detect_run w c) as (c' & Hrun & _ & _ & Hp).
    by rewrite (io_fmap_normal _ _ _ _ _ Hrun).
  - destruct (JoyentCloud_detect_run w c) as (c' & Hrun & _ & _ & Hp).
    by rewrite (io_fmap_normal _ _ _ _ _ Hrun).
Qed.

(** X4. For every kind of probe, detection makes exactly one transport
    call, the one of the probe, and the presence it leaves is what the
    host answers to that call: a GET that brings back a body for the
    URL-based probes; for GCE, in addition, [Metadata-Flavor: Google] as
    the first value of the response header; for Azure and Joyent, an
    [os.Stat] of the marker path without error (the Joyent command is not
    run). *)
Theorem presence_is_the_answer (w : World) (cd : CloudDetector) :
  accepted (detect_url cd) ->
  detectEffectiveCloud cd w = (Normal (detected w cd), [detect_event cd])
  /\ isEffectiveCloud (detected w cd) = probe_answers w cd.
Proof. exact (detect_answers w cd). Qed.

Lemma detect_event_detected (w : World) (cd : CloudDetector) :
  accepted (detect_url cd) ->
  detect_event (detected w cd) = detect_event cd.
Proof.
  intros Hok. unfold detected.
  destruct (detect_run w cd Hok) as (cd' & t & -> & Hk & _ & Hu & _). simpl.
  destruct cd, cd'; simpl in *; try done; by injection Hu as ->.
Qed.

(** X5. Detection keeps nothing of an earlier detection: two probes of the
    same type that were built alike come out equal, whatever presence and
    body (and, for GCE, Azure and Joyent, whatever [supportsKey]) they held
    before; so detecting twice on the same host leaves what detecting once
    leaves. *)
Theorem detection_forgets_previous_state (w : World) (cd1 cd2 : CloudDetector) :
  accepted (detect_url cd1) ->
  same_config cd1 cd2 ->
  detected w cd1 = detected w cd2
  /\ detected w (detected w cd1) = detected w cd1.
Proof.
  assert (forall cd cd', accepted (detect_url cd) -> same_config cd cd' ->
            detected w cd = detected w cd') as Hgen.
  { intros cd cd' Hok Hcfg. unfold detected.
    destruct cd as [c | c | c | c | c | c], cd' as [c' | c' | c' | c' | c' | c'];
      simpl in *; try done.
    1, 4, 5:
      destruct Hcfg as (Hn & Hk & Hb & Ht);
      rewrite (io_fmap_normal _ _ _ _ _ (SimpleUrlBasedCloud_detect_closed c w Hok));
      rewrite Ht in Hok;
      rewrite (io_fmap_normal _ _ _ _ _ (SimpleUrlBasedCloud_detect_closed c' w Hok));
      simpl; by rewrite Hn, Hk, Hb, Ht.
    - destruct (GCECloud_detect_run w c Hok) as (d & Hrun & Hn & Hk & Hf & Hs).
      destruct (GCECloud_detect_run w c' Hok) as (d' & Hrun' & Hn' & Hk' & Hf' & Hs').
      rewrite (io_fmap_normal _ _ _ _ _ Hrun), (io_fmap_normal _ _ _ _ _ Hrun').
      simpl. f_equal.
      assert (isMyCloud d = isMyCloud d') as Hp.
      { destruct (http_failure w gce_url gce_headers) eqn:Hfail.
        - by rewrite Hf, Hf'.
        - unfold http_failure in Hfail.
          destruct (httpDo w gce_url gce_headers) as [r | r e] eqn:Hdo; [| done].
          rewrite (Hs r eq_refl eq_refl), (Hs' r eq_refl eq_refl). done. }
      destruct d, d'. simpl in *. congruence.
    - destruct (AzureCloud_detect_run w c) as (d & Hrun & Hn & Hk & Hp).
      destruct (AzureCloud_detect_run w c') as (d' & Hrun' & Hn' & Hk' & Hp').
      rewrite (io_fmap_normal _ _ _ _ _ Hrun), (io_fmap_normal _ _ _ _ _ Hrun').
      simpl. f_equal. destruct d, d'. simpl in *. congruence.
    - destruct (JoyentCloud_detect_run w c) as (d & Hrun & Hn & Hk & Hp).
      destruct (JoyentCloud_detect_run w c') as (d' & Hrun' & Hn' & Hk' & Hp').
      rewrite (io_fmap_normal _ _ _ _ _ Hrun), (io_fmap_normal _ _ _ _ _ Hrun').
      simpl. f_equal. destruct d, d'. simpl in *. congruence. }
  intros Hok Hcfg. split; [by apply Hgen |].
  apply Hgen; [by apply detected_accepted |].
  unfold detected.
  destruct cd1 as [c | c | c | c | c | c]; simpl in *.
  1, 4, 5:
    by rewrite (io_fmap_normal _ _ _ _ _ (SimpleUrlBasedCloud_detect_closed c w Hok)).
  - destruct (GCECloud_detect_run w c Hok) as (d & Hrun & Hn & _).
    by rewrite (io_fmap_normal _ _ _ _ _ Hrun).
  - destruct (AzureCloud_detect_run w c) as (d & Hrun & Hn & _).
    by rewrite (io_fmap_normal _ _ _ _ _ Hrun).
  - destruct (JoyentCloud_detect_run w c) as (d & Hrun & Hn & _).
    by rewrite (io_fmap_normal _ _ _ _ _ Hrun).
Qed.

(** ** The transport calls of the detection phase *)

Lemma detectTask_trace (w : World) (i : nat) (l : list CloudDetector) :
  Forall (fun cd => accepted (detect_url cd)) l ->
  (detectTask i l w).2 = option_list (detect_event <$> l !! i).
Proof.
  intros Hl. unfold detectTask. destruct (l !! i) as [cd |] eqn:Hi; [| done].
  assert (accepted (detect_url cd)) as Hok by (by eapply Forall_lookup_1 in Hl).
  destruct (detect_answers w cd Hok) as [Hrun _].
  by rewrite (io_bind_normal _ _ _ _ _ Hrun).
Qed.

Lemma runTasks_trace (w : World) (sched : list nat) (l : list CloudDetector) :
  Forall (fun cd => accepted (detect_url cd)) l ->
  (runTasks sched l w).2 = omap (fun i => detect_event <$> l !! i) sched.
Proof.
  revert l. induction sched as [| i rest IH]; intros l Hl; [done |].
  simpl. pose proof (detectTask_run w i l Hl) as H1.
  pose proof (detectTask_trace w i l Hl) as H2.
  destruct (detectTask i l w) as [o t] eqn:Ht. simpl in H1, H2. subst o t.
  rewrite (io_bind_normal _ _ _ _ _ Ht). cbn [snd].
  rewrite (IH _ (alter_detected_accepted w i l Hl)).
  assert (omap (fun j => detect_event <$> alter (detected w) i l !! j) rest
          = omap (fun j => detect_event <$> l !! j) rest) as ->.
  { apply list_omap_ext. apply Forall2_same_length_lookup_2; [done |].
    intros k j j' Hj Hj'. rewrite Hj in Hj'. injection Hj' as <-.
    destruct (decide (i = j)) as [<- |]; [| by rewrite list_lookup_alter_ne].
    rewrite list_lookup_alter_eq. destruct (l !! i) as [cd |] eqn:Hi; [| done].
    simpl. f_equal. apply detect_event_detected. by eapply Forall_lookup_1 in Hl. }
  by destruct (l !! i).
Qed.

(** X6. Whatever the hosts answer, the detection phase makes exactly six
    transport calls, one per probe of the registry and in the order in
    which the tasks take effect: four GETs (AWS, GCE with its header,
    OpenStack, Digital Ocean) and two [os.Stat]. No probe is skipped once
    another one is present, none is tried twice, and no command is run. *)
Theorem detection_probes_each_once (w : World) (sched : list nat) :
  schedule (length setupClouds) sched ->
  (runTasks sched setupClouds w).2
  = omap (fun i => detect_event <$> setupClouds !! i) sched
  /\ (runTasks sched setupClouds w).2
     ≡ₚ [ EvHttpGet "http://169.254.169.254/latest/meta-data/instance-id" ∅;
          EvHttpGet "http://metadata.google.internal/"
            {[ "Metadata-Flavor" := "Google" ]};
          EvStat "/var/lib/waagent/ovf-env.xml";
          EvHttpGet "http://169.254.169.254/openstack/2012-08-10/meta_data.json" ∅;
          EvHttpGet "http://169.254.169.254/metadata/v1/id" ∅;
          EvStat "/usr/sbin/mdata-get" ].
Proof.
  intros Hs. rewrite runTasks_trace by exact registry_urls. split; [done |].
  unfold schedule in Hs. rewrite Hs. reflexivity.
Qed.

(** ** The key fetch of each kind of probe *)

(** The key fetch of the probes that fetch a key by a GET. *)
Lemma getKey_by_get (cd : CloudDetector) (k u : string) (w : World) :
  key_url cd k = Some u ->
  NewRequest_ok u = true ->
  exists err,
    getKey cd k w
    = (Normal (http_body w u (key_headers cd), err), [EvHttpGet u (key_headers cd)])
    /\ (err = None <-> is_Some (http_body w u (key_headers cd))).
Proof.
  intros Hu Hok.
  destruct (getUrl_accepted u (key_headers cd) w Hok)
    as (resp & err & Hrun & Herr & _).
  exists err. split; [| done].
  destruct cd as [c | c | c | c | c | c]; simpl in Hu; try discriminate;
    injection Hu as <-; simpl.
  - unfold SimpleUrlBasedCloud_getKey.
    by rewrite (io_bind_normal _ _ _ _ _ Hrun).
  - unfold GCECloud_getKey.
    change ({[ "Metadata-Flavor" := "Google" ]} : gmap string string) with gce_headers.
    by rewrite (io_bind_normal _ _ _ _ _ Hrun).
  - unfold SimpleUrlBasedCloud_getKey.
    by rewrite (io_bind_normal _ _ _ _ _ Hrun).
Qed.

(** X7. The key fetch of AWS, Digital Ocean and GCE is one GET of the URL
    made of the base URL followed by the key as it is (for GCE with the
    header [Metadata-Flavor: Google]); on a URL that [http.NewRequest]
    accepts it returns the body that the GET brings back, unchanged, and
    an error exactly when there is none. It uses nothing of what the
    detection left in the probe (the presence flag, the cached body), and
    GCE does not check the header of the response as its detection does. *)
Theorem http_key_fetch (cd : CloudDetector) (k u : string) (w : World) :
  key_url cd k = Some u ->
  NewRequest_ok u = true ->
  exists err,
    getKey cd k w
    = (Normal (http_body w u (key_headers cd), err), [EvHttpGet u (key_headers cd)])
    /\ (err = None <-> is_Some (http_body w u (key_headers cd))).
Proof. exact (getKey_by_get cd k u w). Qed.

Lemma final_name_by_kind (w : World) (i : nat) (cd : CloudDetector) :
  (detected w <$> setupClouds) !! i = Some cd ->
  cloudDescription cd
  = match cd with
    | AWSCloud _ => "AWS"
    | GCECloud _ => "GCE"
    | AzureCloud _ => "Azure"
    | OpenStackCloud _ => "OpenStack"
    | DigitalOceanCloud _ => "Digital Ocean"
    | JoyentCloud _ => "Joyent"
    end.
Proof.
  intros (cd0 & Heq & Hcd0)%list_lookup_fmap_Some.
  assert (accepted (detect_url cd0)) as Hok0
    by (by eapply Forall_lookup_1 in registry_urls).
  assert (same_kind cd0 cd) as Hkind.
  { rewrite Heq. unfold detected.
    by destruct (detect_run w cd0 Hok0) as (cd' & t & -> & ? & _). }
  rewrite Heq, detected_description by done. rewrite <- Heq.
  destruct i as [| [| [| [| [| [| i]]]]]]; simpl in Hcd0;
    try discriminate; injection Hcd0 as <-; by destruct cd.
Qed.

(** X8. When Joyent is the detected provider and a key is requested, the
    program runs [/usr/sbin/mdata-get] once, with the key as its only
    argument. It prints [Joyent] and then the standard output of the
    command as it is (a newline that the command ends its output with is
    followed by the newline of the program) and exits 0; when the command
    fails it prints [Joyent], [UNKNOWN] and exits 1. *)
Theorem joyent_key_fetch
  (args : list string) (sched : list nat) (wd wk : World) (opts : CommandOptions)
  (i : nat) (c : BaseCloud) :
  schedule (length setupClouds) sched ->
  setupOptions setupClouds args = Some opts ->
  key opts ≠ "" ->
  winner (detected wd <$> setupClouds) = Some (i, JoyentCloud c) ->
  main args sched wd wk
  = match execOutput wk "/usr/sbin/mdata-get" [key opts] with
    | Ok out =>
        Exited (line "Joyent" +:+ line out) 0
          [EvExec "/usr/sbin/mdata-get" [key opts]]
    | Err _ =>
        Exited (line "Joyent" +:+ line "UNKNOWN") 1
          [EvExec "/usr/sbin/mdata-get" [key opts]]
    end.
Proof.
  intros Hs Ho Hk Hw.
  destruct (winner_final wd i _ Hw) as (Hi & Hp & Hm).
  pose proof (final_name_by_kind wd i _ Hi) as Hname.
  rewrite (main_run _ _ _ _ Hs), Ho, Hw.
  pose proof (reported_key opts _ wk Hk Hm Hp) as Hrep.
  rewrite Hname in Hrep. revert Hrep.
  simpl. unfold JoyentCloud_getKey. io_unfold. simpl.
  destruct (execOutput wk "/usr/sbin/mdata-get" [key opts]) as [out | e]; simpl.
  - by intros (v & [= <-] & ->).
  - done.
Qed.

(** ** The exit status *)

Lemma getKey_one_call (cd : CloudDetector) (k : string) (w : World) :
  (length (getKey cd k w).2 <= 1)%nat.
Proof.
  assert (forall u h,
    (length ((getUrl u h ≫= fun '(metadata', _, err) => mret (metadata', err)) w).2
     <= 1)%nat) as Hget.
  { intros u h. destruct (NewRequest_ok u) eqn:Hok.
    - destruct (getUrl_accepted u h w Hok) as (resp & err & Hrun & _).
      by rewrite (io_bind_normal _ _ _ _ _ Hrun).
    - rewrite (io_bind_panic _ _ _ _ _ (getUrl_rejected u h w Hok)). simpl. lia. }
  destruct cd as [c | c | c | c | c | c]; simpl.
  1, 2, 5: apply Hget.
  - simpl. lia.
  - unfold OpenStackCloud_getKey. destruct (metadata c); io_unfold; simpl; [| lia].
    case_bool_decide; simpl; lia.
  - unfold JoyentCloud_getKey. io_unfold. simpl.
    destruct (execOutput w "/usr/sbin/mdata-get" [k]); simpl; lia.
Qed.

(** X9. When the process ends through [os.Exit] of [main], the status is 0
    or 1. It is 0 exactly when a provider was detected and, if a key was
    requested, the key fetch of the first present probe returned no
    error; standard output then starts with the provider name. It is 1
    otherwise, and the last line of standard output is then [UNKNOWN].
    After the join the program makes at most one transport call. *)
Theorem exit_status_meaning
  (args : list string) (sched : list nat) (wd wk : World) (opts : CommandOptions)
  (out : string) (rc : Z) (calls : list Event) :
  schedule (length setupClouds) sched ->
  setupOptions setupClouds args = Some opts ->
  main args sched wd wk = Exited out rc calls ->
  (length calls <= 1)%nat
  /\ ((rc = 0
       /\ exists i cd,
            winner (detected wd <$> setupClouds) = Some (i, cd)
            /\ ((key opts = "" /\ calls = [] /\ out = line (cloudDescription cd))
                \/ (key opts ≠ ""
                    /\ exists v,
                         getKey cd (key opts) wk = (Normal (Some v, None), calls)
                         /\ out = line (cloudDescription cd) +:+ line v)))
      \/ (rc = 1
          /\ ((winner (detected wd <$> setupClouds) = None
               /\ calls = [] /\ out = line "UNKNOWN")
              \/ exists i cd val e,
                   winner (detected wd <$> setupClouds) = Some (i, cd)
                   /\ key opts ≠ ""
                   /\ getKey cd (key opts) wk = (Normal (val, Some e), calls)
                   /\ out = line (cloudDescription cd) +:+ line "UNKNOWN"))).
Proof.
  intros Hs Ho. rewrite (main_run _ _ _ _ Hs), Ho.
  destruct (winner _) as [[i cd] |] eqn:Hw.
  - destruct (winner_final wd i cd Hw) as (_ & Hp & Hm).
    destruct (decide (key opts = "")) as [Hk | Hk].
    + rewrite reported_no_key by done. intros [= <- <- <-].
      split; [simpl; lia |]. left. split; [done |]. exists i, cd.
      split; [done |]. left. by split_and!.
    + pose proof (reported_key opts cd wk Hk Hm Hp) as Hrep.
      pose proof (getKey_one_call cd (key opts) wk) as Hlen.
      destruct (getKey cd (key opts) wk) as [[[val [e |]] | m] t'] eqn:Hg.
      * rewrite Hrep. intros [= <- <- <-]. split; [done |].
        right. split; [done |]. right. exists i, cd, val, e. by split_and!.
      * destruct Hrep as (v & -> & ->). intros [= <- <- <-]. split; [done |].
        left. split; [done |]. exists i, cd. split; [done |]. right.
        split; [done |]. by exists v.
      * destruct Hrep as [_ ->]. done.
  - intros [= <- <- <-]. split; [simpl; lia |]. right. split; [done |].
    left. by split_and!.
Qed.

(** ** The run without a key, read off the host *)

Lemma winner_answers (w : World) (l : list CloudDetector) :
  Forall (fun cd => accepted (detect_url cd)) l ->
  winner (detected w <$> l)
  = prod_map id (detected w) <$> list_find (fun cd => probe_answers w cd = true) l.
Proof.
  intros Hl. unfold winner. rewrite list_find_fmap. f_equal.
  induction Hl as [| cd l Hok Hl IH]; [done |]. simpl.
  destruct (detect_answers w cd Hok) as [_ Hp].
  rewrite IH. destruct (probe_answers w cd) eqn:Ha.
  - by rewrite !decide_True.
  - rewrite !decide_False; [done | done | by rewrite Hp].
Qed.

(** X10. Without a key, what the program prints is decided by the host
    alone: the name of the first probe of the registry, in its order,
    whose own transport call is answered (a body for AWS, OpenStack and
    Digital Ocean, a body and the Google header for GCE, the marker path
    for Azure and Joyent), with status 0; and [UNKNOWN] with status 1
    exactly when none is answered. *)
Theorem no_key_run_reads_the_host
  (args : list string) (sched : list nat) (wd wk : World) (opts : CommandOptions) :
  schedule (length setupClouds) sched ->
  setupOptions setupClouds args = Some opts ->
  key opts = "" ->
  main args sched wd wk
  = match list_find (fun cd => probe_answers wd cd = true) setupClouds with
    | Some (_, cd) => Exited (line (cloudDescription cd)) 0 []
    | None => Exited (line "UNKNOWN") 1 []
    end.
Proof.
  intros Hs Ho Hk. rewrite (main_run _ _ _ _ Hs), Ho.
  rewrite (winner_answers wd setupClouds registry_urls).
  destruct (list_find _ setupClouds) as [[i cd] |] eqn:Hf; [| done]. simpl.
  rewrite reported_no_key by done. rewrite detected_description; [done |].
  apply list_find_Some in Hf as (Hi & _).
  by eapply Forall_lookup_1 in registry_urls.
Qed.

(** ** The usage text *)

Lemma string_app_assoc (a b c : string) : (a +:+ b) +:+ c = a +:+ b +:+ c.
Proof.
  induction a as [| x a IH]; [done |].
  change (String x ((a +:+ b) +:+ c) = String x (a +:+ b +:+ c)). by f_equal.
Qed.

Lemma string_app_nil_r (a : string) : a +:+ "" = a.
Proof.
  induction a as [| x a IH]; [done |].
  change (String x (a +:+ "") = String x a). by f_equal.
Qed.

(** X11. The usage text that [setupOptions] builds is, for every registry:
    the heading, one line per probe with its name after a tab, in the
    order of the registry; the heading of the key section; one such line
    for each probe whose [supportsKeys] is set at that time, in the same
    order; and the [[options]] footer. *)
Theorem usageMessage_lists_probes (cdList : list CloudDetector) :
  usageMessage cdList
  = usage_head
    +:+ unlines (usage_entry <$> cdList)
    +:+ usage_keys_head
    +:+ unlines (usage_entry <$> filter (fun cd => supportsKeys cd = true) cdList)
    +:+ usage_tail.
Proof.
  assert (forall l acc,
    foldl (fun msg cd => msg +:+ tab +:+ cloudDescription cd +:+ nl) acc l
    = acc +:+ unlines (usage_entry <$> l)) as H1.
  { induction l as [| cd l IH]; intros acc; simpl.
    - by rewrite string_app_nil_r.
    - rewrite IH. fold (usage_entry cd). by rewrite string_app_assoc. }
  assert (forall l acc,
    foldl (fun msg cd =>
             if supportsKeys cd then msg +:+ tab +:+ cloudDescription cd +:+ nl
             else msg) acc l
    = acc +:+ unlines (usage_entry <$> filter (fun cd => supportsKeys cd = true) l))
    as H2.
  { induction l as [| cd l IH]; intros acc; simpl.
    - by rewrite string_app_nil_r.
    - rewrite IH, filter_cons. destruct (supportsKeys cd) eqn:Hk.
      + rewrite decide_True by done. simpl. fold (usage_entry cd).
        by rewrite string_app_assoc.
      + by rewrite decide_False by done. }
  unfold usageMessage. fold usage_head usage_keys_head usage_tail.
  rewrite H2, H1. by rewrite !string_app_assoc.
Qed.

(** ** The OpenStack key fetch on a flat object *)

Lemma parse_members_key (f : nat) (r k r2 : list Z) :
  parse_string (S (length r)) r = Some (k, 58 :: r2) ->
  parse_members (S f) (34 :: r)
  = '(v, r3) ← parse_value f r2;
    match skip_space r3 with
    | 44 :: r4 =>
        '(rest, r5) ← parse_members f r4;
        Some ((string_of_bytes k, v) :: rest, r5)
    | 125 :: r4 => Some ([(string_of_bytes k, v)], r4)
    | _ => None
    end.
Proof.
  intros H. cbn -[parse_string]. rewrite H. reflexivity.
Qed.

Lemma parse_value_string (f : nat) (r str r' : list Z) :
  parse_string (S (length r)) r = Some (str, r') ->
  parse_value (S f) (34 :: r) = Some (JString (string_of_bytes str), r').
Proof.
  intros H. cbn -[parse_string]. rewrite H. reflexivity.
Qed.

Lemma bytes_of_members (k v : string) (fs : list (string * string)) :
  bytes_of_string (json_members ((k, v) :: fs))
  = 34 :: bytes_of_string k
    ++ 34 :: 58 :: 34 :: bytes_of_string v
    ++ 34 :: match fs with
             | [] => []
             | _ => 44 :: bytes_of_string (json_members fs)
             end.
Proof.
  destruct fs as [| p fs].
  - simpl. rewrite !bytes_of_string_app, !bytes_of_quoted.
    simpl. rewrite <- !app_assoc. reflexivity.
  - change (json_members ((k, v) :: p :: fs))
      with (quoted k +:+ ":" +:+ quoted v +:+ "," +:+ json_members (p :: fs)).
    rewrite !bytes_of_string_app, !bytes_of_quoted.
    simpl. rewrite <- !app_assoc. reflexivity.
Qed.

(** The members of a flat object of plain strings are read back in their
    order. *)
Lemma parse_members_flat (fs : list (string * string)) (p : string * string)
  (rest : list Z) (fuel : nat) :
  Forall (fun kv => plain kv.1 /\ plain kv.2) (p :: fs) ->
  (length (p :: fs) < fuel)%nat ->
  parse_members fuel (bytes_of_string (json_members (p :: fs)) ++ 125 :: rest)
  = Some ((fun kv => (kv.1, JString kv.2)) <$> (p :: fs), rest).
Proof.
  revert p fuel. induction fs as [| q fs IH]; intros [k v] fuel Hp Hlen;
    apply Forall_cons in Hp as [[Hk Hv] Hp]; simpl in Hk, Hv;
    rewrite bytes_of_members;
    (destruct fuel as [| [| fuel]]; [simpl in Hlen; lia | simpl in Hlen; lia |]);
    norm_app.
  - rewrite (parse_members_key _ _ (bytes_of_string k)
               (34 :: bytes_of_string v ++ 34 :: 125 :: rest)).
    2: { apply parse_string_plain; [done |]. rewrite length_app. simpl. lia. }
    rewrite (parse_value_string _ _ (bytes_of_string v) (125 :: rest)).
    2: { apply parse_string_plain; [done |]. rewrite length_app. simpl. lia. }
    simpl. by rewrite !string_of_bytes_of_string.
  - rewrite (parse_members_key _ _ (bytes_of_string k)
               (34 :: bytes_of_string v
                ++ 34 :: 44 :: bytes_of_string (json_members (q :: fs)) ++ 125 :: rest)).
    2: { apply parse_string_plain; [done |]. rewrite length_app. simpl. lia. }
    rewrite (parse_value_string _ _ (bytes_of_string v)
               (44 :: bytes_of_string (json_members (q :: fs)) ++ 125 :: rest)).
    2: { apply parse_string_plain; [done |]. rewrite length_app. simpl. lia. }
    cbn -[parse_members json_members].
    rewrite IH by (done || simpl in *; lia).
    simpl. by rewrite !string_of_bytes_of_string.
Qed.

Lemma parse_value_object (f : nat) (r : list Z) :
  parse_value (S f) (123 :: 34 :: r)
  = '(fs, r') ← parse_members f (34 :: r); Some (JObject fs, r').
Proof. reflexivity. Qed.

Lemma length_members (fs : list (string * string)) :
  (length fs <= length (bytes_of_string (json_members fs)))%nat.
Proof.
  induction fs as [| [k v] fs IH]; [done |].
  rewrite bytes_of_members. simpl. rewrite !length_app. simpl.
  rewrite !length_app. simpl. destruct fs; simpl in *; lia.
Qed.

(** X12. A flat JSON object of plain strings, written without spaces, is
    decoded into the map of its fields, a later field of the same name
    overriding an earlier one. On such a cached body [getKey] of the
    OpenStack probe returns the value of the last field named by the key,
    and the failure [No such key] when there is no such field or its
    value is empty. *)
Theorem openstack_getKey_flat_object
  (c : SimpleUrlBasedCloud) (fields : list (string * string)) (k : string) (w : World) :
  Forall (fun kv => plain kv.1 /\ plain kv.2) fields ->
  metadata c = Some (json_object fields) ->
  json_Decode_map (json_object fields) !! k = last_field fields k
  /\ OpenStackCloud_getKey c k w
     = match last_field fields k with
       | Some v =>
           if decide (v = "")
           then (Normal (None, Some ("No such key " +:+ k)), [])
           else (Normal (Some v, None), [])
       | None => (Normal (None, Some ("No such key " +:+ k)), [])
       end.
Proof.
  intros Hp Hm.
  assert (json_Decode_map (json_object fields) !! k = last_field fields k) as Hd.
  { destruct fields as [| p fs]; [done |].
    unfold json_Decode_map, json_object.
    rewrite !bytes_of_string_app.
    change (bytes_of_string "{") with [123].
    change (bytes_of_string "}") with [125].
    pose proof (length_members (p :: fs)) as Hlen.
    pose proof (parse_members_flat fs p []) as Hparse.
    destruct p as [k0 v0].
    destruct (bytes_of_string (json_members ((k0, v0) :: fs))) as [| b memb] eqn:Hb;
      [by rewrite bytes_of_members in Hb |].
    assert (b = 34) as -> by (rewrite bytes_of_members in Hb; by injection Hb).
    cbn [app length]. rewrite parse_value_object.
    change (34 :: memb ++ [125]) with ((34 :: memb) ++ [125]).
    rewrite Hparse by (done || simpl in *; rewrite ?length_app; simpl; lia).
    cbn [mbind option_bind]. rewrite foldl_insert_lookup.
    by destruct (last_field _ k). }
  split; [exact Hd |].
  unfold OpenStackCloud_getKey. rewrite Hm. io_unfold.
  cbn -[json_Decode_map json_object]. unfold map_index. rewrite Hd.
  destruct (last_field fields k) as [v |]; simpl; [| done].
  destruct (decide (v = "")) as [-> | Hv]; [done |].
  by rewrite bool_decide_eq_false_2.
Qed.

(** ** The run with a key fetched by a GET *)

(** X13. When the detected provider is AWS, Digital Ocean or GCE, a key is
    requested and [http.NewRequest] accepts the URL made of the base URL
    and the key, the program makes one GET of that URL after the join. It
    prints the provider name and the body that the GET brought back, as it
    is, and exits 0; when the GET brings back no body (no response, a
    status other than 200, an unreadable body) it prints the provider
    name, [UNKNOWN] and exits 1. *)
Theorem http_key_run
  (args : list string) (sched : list nat) (wd wk : World) (opts : CommandOptions)
  (i : nat) (cd : CloudDetector) (u : string) :
  schedule (length setupClouds) sched ->
  setupOptions setupClouds args = Some opts ->
  key opts ≠ "" ->
  winner (detected wd <$> setupClouds) = Some (i, cd) ->
  key_url cd (key opts) = Some u ->
  NewRequest_ok u = true ->
  main args sched wd wk
  = match http_body wk u (key_headers cd) with
    | Some body =>
        Exited (line (cloudDescription cd) +:+ line body) 0
          [EvHttpGet u (key_headers cd)]
    | None =>
        Exited (line (cloudDescription cd) +:+ line "UNKNOWN") 1
          [EvHttpGet u (key_headers cd)]
    end.
Proof.
  intros Hs Ho Hk Hw Hu Hok.
  destruct (winner_final wd i cd Hw) as (_ & Hp & Hm).
  rewrite (main_run _ _ _ _ Hs), Ho, Hw.
  pose proof (reported_key opts cd wk Hk Hm Hp) as Hrep.
  destruct (getKey_by_get cd (key opts) u wk Hu Hok) as (err & Hg & Herr).
  rewrite Hg in Hrep.
  destruct err as [e |].
  - destruct (http_body wk u (key_headers cd)) as [b |]; [| done].
    destruct Herr as [_ Herr]. by specialize (Herr (mk_is_Some _ _ eq_refl)).
  - destruct Hrep as (v & -> & ->). done.
Qed.

(** ** The OpenStack key fetch without a body *)

(** X14. An OpenStack probe that its detection left absent holds no body,
    and its [getKey] then panics on the [nil] pointer for every key,
    before looking at the key. (The key fetch of AWS, Digital Ocean and
    GCE does not depend on the detection; [main] asks a probe for a key
    only when it is present.) *)
Theorem openstack_getKey_absent_panics
  (c : SimpleUrlBasedCloud) (k : string) (wd wk : World) :
  NewRequest_ok (testUrl c) = true ->
  isEffectiveCloud (detected wd (OpenStackCloud c)) = false ->
  getKey (detected wd (OpenStackCloud c)) k wk = (Panic nil_dereference, []).
Proof.
  intros Hok. unfold detected. simpl.
  rewrite (io_fmap_normal _ _ _ _ _ (SimpleUrlBasedCloud_detect_closed c wd Hok)). simpl.
  unfold isEffectiveCloud, BaseCloud_isEffectiveCloud, OpenStackCloud_getKey. simpl.
  intros Hp%bool_decide_eq_false.
  destruct (http_body wd (testUrl c) ∅) as [b |]; [| done].
  destruct Hp. by exists b.
Qed.

End Program.

(** * The properties at sample hosts

    Here [http.NewRequest] is instantiated by [escapes_ok], which accepts
    the four detection URLs. *)

Lemma sample_registry_urls :
  Forall (fun cd => accepted escapes_ok (detect_url cd)) setupClouds.
Proof. repeat constructor. Defined.

Lemma reverse_schedule_ok : schedule (length setupClouds) reverse_schedule.
Proof. exact (reverse_Permutation (seq 0 6)). Defined.

Lemma registry_schedule_ok : schedule (length setupClouds) (seq 0 6).
Proof. exact (Permutation_refl (seq 0 6)). Defined.

Lemma winner_is_first_present_in_registry_order_witness :
  (runTasks escapes_ok reverse_schedule setupClouds ec2_host).1
  = Normal (detected escapes_ok ec2_host <$> setupClouds).
Proof.
  exact (proj1 (winner_is_first_present_in_registry_order
                  escapes_ok sample_registry_urls
                  [] reverse_schedule ec2_host ec2_host reverse_schedule_ok)).
Defined.

(** With the tasks finishing in reverse order on a host where the marker
    files of Azure and Joyent exist next to the AWS metadata server, the
    entry earliest in the registry wins. *)
Example tie_goes_to_registry_order :
  let w := {| httpDo := httpDo ec2_host; osStat := fun _ => None;
              execOutput := execOutput ec2_host |} in
  isEffectiveCloud <$> (detected escapes_ok w <$> setupClouds)
  = [true; false; true; false; false; true]
  /\ main escapes_ok [] reverse_schedule w w = Exited (line "AWS") 0 [].
Proof. split; vm_compute; reflexivity. Qed.

Lemma unknown_or_provider_name_witness :
  main escapes_ok [] (seq 0 6) bare_host bare_host = Exited (line "UNKNOWN") 1 [].
Proof.
  refine (proj1 (unknown_or_provider_name escapes_ok sample_registry_urls
                   [] (seq 0 6) bare_host bare_host
                   {| verbose := false; key := "" |}
                   registry_schedule_ok eq_refl) _).
  repeat constructor.
Defined.

Example only_aws_answers :
  main escapes_ok [] (seq 0 6) ec2_host ec2_host = Exited (line "AWS") 0 [].
Proof. vm_compute. reflexivity. Qed.

(** AWS detected and the key [%zz] requested: the key fetch fails on the
    panic, after the first line. *)
Lemma key_fetch_failure_outcomes_witness :
  getKey escapes_ok (detected escapes_ok ec2_host (AWSCloud NewAWSCloud)) "%zz" ec2_host
  = (Panic nil_dereference, [])
  /\ main escapes_ok ["--key"; "%zz"] (seq 0 6) ec2_host ec2_host
     = Crashed (line "AWS") nil_dereference.
Proof.
  refine (let H := proj2 (key_fetch_failure_outcomes escapes_ok sample_registry_urls
                     ["--key"; "%zz"] (seq 0 6) ec2_host ec2_host
                     {| verbose := false; key := "%zz" |}
                     0%nat (detected escapes_ok ec2_host (AWSCloud NewAWSCloud))
                     registry_schedule_ok eq_refl _ eq_refl)
                   "http://169.254.169.254/latest/meta-data/%zz" eq_refl eq_refl
          in conj (proj1 H) (proj1 (proj2 H))).
  discriminate.
Defined.

(** AWS detected, the key [ami-id] requested and served. *)
Example aws_ami_id :
  main escapes_ok ["--key"; "ami-id"] (seq 0 6) ec2_host ec2_host
  = Exited (line "AWS" +:+ line "ami-deadbeef") 0
      [EvHttpGet "http://169.254.169.254/latest/meta-data/ami-id" ∅].
Proof. vm_compute. reflexivity. Qed.

(** AWS detected, the key [bogus] requested, the server answers 404. *)
Example aws_bogus_key :
  main escapes_ok ["--key"; "bogus"] (seq 0 6) ec2_host ec2_host
  = Exited (line "AWS" +:+ line "UNKNOWN") 1
      [EvHttpGet "http://169.254.169.254/latest/meta-data/bogus" ∅].
Proof. vm_compute. reflexivity. Qed.

(** AWS detected, and a key that does not make a URL: [getUrl] drops the
    error of [http.NewRequest] and the process panics after the first
    line. *)
Example aws_malformed_key :
  main escapes_ok ["--key"; "%zz"] (seq 0 6) ec2_host ec2_host
  = Crashed (line "AWS") nil_dereference.
Proof. vm_compute. reflexivity. Qed.

Lemma rejected_key_url_panics_witness :
  getKey escapes_ok (detected escapes_ok ec2_host (AWSCloud NewAWSCloud)) "%zz" ec2_host
  = (Panic nil_dereference, [])
  /\ main escapes_ok ["--key"; "%zz"] reverse_schedule ec2_host ec2_host
     = Crashed (line "AWS") nil_dereference.
Proof.
  refine (rejected_key_url_panics escapes_ok sample_registry_urls
            ["--key"; "%zz"] reverse_schedule ec2_host ec2_host
            {| verbose := false; key := "%zz" |}
            0%nat (detected escapes_ok ec2_host (AWSCloud NewAWSCloud))
            "http://169.254.169.254/latest/meta-data/%zz"
            reverse_schedule_ok eq_refl _ eq_refl eq_refl eq_refl).
  discriminate.
Defined.

Lemma empty_key_fetches_nothing_witness :
  main escapes_ok ["--key"; ""; "--verbose"] reverse_schedule ec2_host ec2_host
  = main escapes_ok [] reverse_schedule ec2_host ec2_host.
Proof.
  exact (proj1 (empty_key_fetches_nothing escapes_ok sample_registry_urls
                  ["--key"; ""; "--verbose"] reverse_schedule ec2_host ec2_host
                  {| verbose := true; key := "" |}
                  reverse_schedule_ok eq_refl eq_refl)).
Defined.

Lemma gce_presence_needs_header_witness :
  exists c',
    GCECloud_detectEffectiveCloud escapes_ok NewGCECloud generic_metadata_host
    = (Normal c', [EvHttpGet gce_url gce_headers])
    /\ isMyCloud c' = false.
Proof.
  destruct (gce_presence_needs_header escapes_ok sample_registry_urls
              NewGCECloud generic_metadata_host) as (c' & Hrun & _ & _ & Hnone).
  exists c'. split; [exact Hrun |].
  exact (Hnone _ eq_refl eq_refl eq_refl).
Defined.

(** A service that answers 200 to everything but does not send the header
    is not taken for GCE, though it is taken for the URL-based clouds. *)
Example gce_rejects_generic_service :
  isEffectiveCloud <$> (detected escapes_ok generic_metadata_host <$> setupClouds)
  = [true; false; false; true; true; false].
Proof. vm_compute. reflexivity. Qed.

Example gce_accepts_google :
  let w := {| httpDo := fun url _ =>
                if bool_decide (url = gce_url)
                then ok200 "" {[ "Metadata-Flavor" := ["Google"] ]}
                else notFound;
              osStat := osStat bare_host; execOutput := execOutput bare_host |} in
  main escapes_ok [] reverse_schedule w w = Exited (line "GCE") 0 [].
Proof. vm_compute. reflexivity. Qed.

(** On an OpenStack guest the whole run fetches the field from the body
    that the detection cached, without a second request. *)
Example openstack_key1 :
  main escapes_ok ["--key"; "key1"] reverse_schedule openstack_host bare_host
  = Exited (line "OpenStack" +:+ line "value1") 0 [].
Proof. vm_compute. reflexivity. Qed.

Example openstack_missing :
  main escapes_ok ["--key"; "missing"] reverse_schedule openstack_host bare_host
  = Exited (line "OpenStack" +:+ line "UNKNOWN") 1 [].
Proof. vm_compute. reflexivity. Qed.

Lemma transport_failure_is_absence_witness :
  exists cd' t,
    detectEffectiveCloud escapes_ok (AWSCloud NewAWSCloud) bare_host = (Normal cd', t)
    /\ isEffectiveCloud cd' = false.
Proof.
  destruct (transport_failure_is_absence escapes_ok sample_registry_urls
              bare_host (AWSCloud NewAWSCloud))
    as ((cd' & t & Hrun & Habsent) & _).
  - apply elem_of_cons. left. reflexivity.
  - exists cd', t. split; [exact Hrun |]. apply Habsent. reflexivity.
Defined.

Example bare_host_everything_fails :
  Forall (fun cd => transport_failure bare_host cd = true) setupClouds
  /\ isEffectiveCloud <$> (detected escapes_ok bare_host <$> setupClouds)
     = [false; false; false; false; false; false].
Proof. split; [repeat constructor | vm_compute; reflexivity]. Qed.

Lemma base_getKey_unsupported_witness :
  exists c : BaseCloud,
    winner (detected escapes_ok azure_host <$> setupClouds)
    = Some (2%nat, AzureCloud c).
Proof.
  exact (proj2 (proj2 (proj2 (base_getKey_unsupported escapes_ok sample_registry_urls)))).
Defined.

(** Azure detected and a key requested. *)
Example azure_any_key :
  main escapes_ok ["--key"; "vmId"] reverse_schedule azure_host azure_host
  = Exited (line "Azure" +:+ line "UNKNOWN") 1 [].
Proof. vm_compute. reflexivity. Qed.

Lemma present_url_probe_has_metadata_witness :
  metadata_cached (detected escapes_ok openstack_host (OpenStackCloud NewOpenStackCloud)).
Proof.
  refine (proj1 (proj2 (present_url_probe_has_metadata escapes_ok sample_registry_urls))
            openstack_host (OpenStackCloud NewOpenStackCloud) _).
  do 3 (apply elem_of_cons; right). apply elem_of_cons. left. reflexivity.
Defined.

Example openstack_winner_holds_body :
  exists c,
    winner (detected escapes_ok openstack_host <$> setupClouds)
    = Some (3%nat, OpenStackCloud c)
    /\ metadata c = Some openstack_body.
Proof. eexists. split; vm_compute; reflexivity. Qed.


(** A cached body that is no object, and an empty one. *)
Example openstack_no_object :
  no_object "[1, 2]" /\ no_object ""
  /\ json_Decode_map "[1, 2]" = ∅ /\ json_Decode_map "" = ∅.
Proof. repeat split. Qed.

(** * The further properties at sample hosts *)

Lemma getUrl_body_or_error_witness :
  (exists resp err,
     getUrl escapes_ok "http://169.254.169.254/latest/meta-data/ami-id" ∅ ec2_host
     = (Normal (Some "ami-deadbeef", resp, err),
        [EvHttpGet "http://169.254.169.254/latest/meta-data/ami-id" ∅])
     /\ err = None)
  /\ getUrl escapes_ok "http://169.254.169.254/latest/meta-data/ami-id" ∅
       redirecting_host
     = (Normal (None, Some found302, Some "stopped after 10 redirects"),
        [EvHttpGet "http://169.254.169.254/latest/meta-data/ami-id" ∅]).
Proof.
  split.
  - destruct (getUrl_body_or_error escapes_ok
                "http://169.254.169.254/latest/meta-data/ami-id" ∅ ec2_host eq_refl)
      as (resp & err & Hrun & Herr & _).
    exists resp, err. split; [exact Hrun |].
    apply Herr. exists "ami-deadbeef". reflexivity.
  - destruct (getUrl_body_or_error escapes_ok
                "http://169.254.169.254/latest/meta-data/ami-id" ∅ redirecting_host
                eq_refl)
      as (resp & err & Hrun & _ & _ & Hresp & _).
    destruct (Hresp _ _ eq_refl) as [-> ->]. exact Hrun.
Defined.

(** A probe that holds a stale body and a stale presence. *)
Lemma url_probe_detection_witness :
  let stale := {| Base := {| name := "AWS"; isMyCloud := true; supportsKey := true |};
                  baseUrl := baseUrl NewAWSCloud;
                  testUrl := testUrl NewAWSCloud;
                  metadata := Some "i-0abc" |} in
  (SimpleUrlBasedCloud_detectEffectiveCloud escapes_ok stale bare_host).1
  = Normal NewAWSCloud.
Proof.
  intros stale.
  exact (f_equal fst (url_probe_detection escapes_ok stale bare_host eq_refl)).
Defined.

Lemma presence_is_the_answer_witness :
  isEffectiveCloud (detected escapes_ok generic_metadata_host (GCECloud NewGCECloud))
  = false.
Proof.
  exact (proj2 (presence_is_the_answer escapes_ok generic_metadata_host
                  (GCECloud NewGCECloud) eq_refl)).
Defined.

Lemma detection_forgets_previous_state_witness :
  let stale := {| Base := {| name := "AWS"; isMyCloud := true; supportsKey := true |};
                  baseUrl := baseUrl NewAWSCloud;
                  testUrl := testUrl NewAWSCloud;
                  metadata := Some "i-0abc" |} in
  detected escapes_ok bare_host (AWSCloud NewAWSCloud)
  = detected escapes_ok bare_host (AWSCloud stale).
Proof.
  intros stale.
  refine (proj1 (detection_forgets_previous_state escapes_ok bare_host
                   (AWSCloud NewAWSCloud) (AWSCloud stale) eq_refl _)).
  repeat split.
Defined.

Lemma detection_probes_each_once_witness :
  (runTasks escapes_ok reverse_schedule setupClouds ec2_host).2
  = [ EvStat "/usr/sbin/mdata-get";
      EvHttpGet "http://169.254.169.254/metadata/v1/id" ∅;
      EvHttpGet "http://169.254.169.254/openstack/2012-08-10/meta_data.json" ∅;
      EvStat "/var/lib/waagent/ovf-env.xml";
      EvHttpGet "http://metadata.google.internal/" {[ "Metadata-Flavor" := "Google" ]};
      EvHttpGet "http://169.254.169.254/latest/meta-data/instance-id" ∅ ].
Proof.
  exact (proj1 (detection_probes_each_once escapes_ok sample_registry_urls
                  ec2_host reverse_schedule reverse_schedule_ok)).
Defined.

(** The key fetch of GCE takes the body of any response with status 200,
    with or without the header of Google. *)
Lemma http_key_fetch_witness :
  exists err,
    getKey escapes_ok (GCECloud NewGCECloud) "instance/id" generic_metadata_host
    = (Normal (Some "ok", err),
       [EvHttpGet "http://metadata.google.internal/computeMetadata/v1/instance/id"
          {[ "Metadata-Flavor" := "Google" ]}]).
Proof.
  destruct (http_key_fetch escapes_ok (GCECloud NewGCECloud) "instance/id"
              "http://metadata.google.internal/computeMetadata/v1/instance/id"
              generic_metadata_host eq_refl eq_refl) as (err & Hrun & _).
  exists err. exact Hrun.
Defined.

Lemma joyent_key_fetch_witness :
  main escapes_ok ["--key"; "sdc:uuid"] reverse_schedule joyent_host joyent_host
  = Exited (line "Joyent" +:+ line (line "0a1b2c")) 0
      [EvExec "/usr/sbin/mdata-get" ["sdc:uuid"]].
Proof.
  refine (joyent_key_fetch escapes_ok sample_registry_urls
            ["--key"; "sdc:uuid"] reverse_schedule joyent_host joyent_host
            {| verbose := false; key := "sdc:uuid" |} 5%nat
            {| name := "Joyent"; isMyCloud := true; supportsKey := true |}
            reverse_schedule_ok eq_refl _ eq_refl).
  discriminate.
Defined.

Example joyent_unknown_key :
  main escapes_ok ["--key"; "nope"] reverse_schedule joyent_host joyent_host
  = Exited (line "Joyent" +:+ line "UNKNOWN") 1
      [EvExec "/usr/sbin/mdata-get" ["nope"]].
Proof. vm_compute. reflexivity. Qed.

(** The run of [aws_bogus_key]: status 1, one GET after the join, and
    [UNKNOWN] as the last line. *)
Lemma exit_status_meaning_witness :
  exists i cd val e,
    winner (detected escapes_ok ec2_host <$> setupClouds) = Some (i, cd)
    /\ getKey escapes_ok cd "bogus" ec2_host
       = (Normal (val, Some e),
          [EvHttpGet "http://169.254.169.254/latest/meta-data/bogus" ∅])
    /\ line "AWS" +:+ line "UNKNOWN" = line (cloudDescription cd) +:+ line "UNKNOWN".
Proof.
  destruct (exit_status_meaning escapes_ok sample_registry_urls
              ["--key"; "bogus"] reverse_schedule ec2_host ec2_host
              {| verbose := false; key := "bogus" |}
              (line "AWS" +:+ line "UNKNOWN") 1
              [EvHttpGet "http://169.254.169.254/latest/meta-data/bogus" ∅]
              reverse_schedule_ok eq_refl eq_refl)
    as [_ [[Hrc _] | [_ [[Hw _] | (i & cd & val & e & Hw & _ & Hg & Hout)]]]].
  - discriminate Hrc.
  - discriminate Hw.
  - exists i, cd, val, e. split; [exact Hw |]. split; [exact Hg | exact Hout].
Defined.

Lemma no_key_run_reads_the_host_witness :
  main escapes_ok [] reverse_schedule generic_metadata_host bare_host
  = Exited (line "AWS") 0 [].
Proof.
  exact (no_key_run_reads_the_host escapes_ok sample_registry_urls
           [] reverse_schedule generic_metadata_host bare_host
           {| verbose := false; key := "" |} reverse_schedule_ok eq_refl eq_refl).
Defined.

(** The usage text of the registry before any detection. *)
Example usage_of_the_registry :
  usageMessage setupClouds
  = usage_head
    +:+ unlines ((fun n => tab +:+ n +:+ nl)
                   <$> ["AWS"; "GCE"; "Azure"; "OpenStack"; "Digital Ocean"; "Joyent"])
    +:+ usage_keys_head
    +:+ unlines ((fun n => tab +:+ n +:+ nl)
                   <$> ["AWS"; "GCE"; "OpenStack"; "Digital Ocean"; "Joyent"])
    +:+ usage_tail.
Proof. vm_compute. reflexivity. Qed.

Lemma openstack_getKey_flat_object_witness :
  let c := {| Base := Base NewOpenStackCloud; baseUrl := ""; testUrl := "";
              metadata := Some (json_object [("id", "abc"); ("id", "xyz"); ("name", "")]) |} in
  OpenStackCloud_getKey c "id" bare_host = (Normal (Some "xyz", None), []).
Proof.
  intros c.
  refine (proj2 (openstack_getKey_flat_object c
                   [("id", "abc"); ("id", "xyz"); ("name", "")] "id" bare_host _ eq_refl)).
  repeat constructor.
Defined.

Lemma http_key_run_witness :
  main escapes_ok ["--key"; "ami-id"] reverse_schedule ec2_host ec2_host
  = Exited (line "AWS" +:+ line "ami-deadbeef") 0
      [EvHttpGet "http://169.254.169.254/latest/meta-data/ami-id" ∅].
Proof.
  refine (http_key_run escapes_ok sample_registry_urls
            ["--key"; "ami-id"] reverse_schedule ec2_host ec2_host
            {| verbose := false; key := "ami-id" |} 0%nat
            (detected escapes_ok ec2_host (AWSCloud NewAWSCloud))
            "http://169.254.169.254/latest/meta-data/ami-id"
            reverse_schedule_ok eq_refl _ eq_refl eq_refl eq_refl).
  discriminate.
Defined.

Lemma openstack_getKey_absent_panics_witness :
  getKey escapes_ok (detected escapes_ok bare_host (OpenStackCloud NewOpenStackCloud))
    "uuid" openstack_host
  = (Panic nil_dereference, []).
Proof.
  exact (openstack_getKey_absent_panics escapes_ok NewOpenStackCloud "uuid"
           bare_host openstack_host eq_refl eq_refl).
Defined.
